(** * CodeEnigma: the gatekeeper build pipeline

    A shallow embedding of the command-line front end ([cli.py]), the Cython
    runtime builder ([runtime/cython/builder.py]) and the three bundlers
    ([bundler/poetry.py], [bundler/uv.py], [bundler/standard.py]).

    The Python code is effectful: it reads and writes files, reads the
    process environment, prints, and launches external tools.  The embedding
    threads an explicit [world] (file system, environment, console, launched
    processes, clock) through a small state-and-exception monad.  Whatever
    the repository only calls (the external tools, [tomllib],
    [datetime.fromisoformat], the templates shipped beside the code, the
    constants module) is a field of the [Host] class. *)

From stdpp Require Import base strings list gmap.
From Stdlib Require Import ZArith Ascii.

Set Warnings "-register-all".

Local Open Scope string_scope.
Local Open Scope list_scope.

(** ** Python strings *)

Module PyStr.

Definition LF : ascii := "010"%char.
Definition CR : ascii := "013"%char.

(** [s.startswith(p)] *)
Fixpoint starts_with (p s : string) : bool :=
  match p, s with
  | EmptyString, _ => true
  | String _ _, EmptyString => false
  | String a p', String b s' => if Ascii.eqb a b then starts_with p' s' else false
  end.

Fixpoint drop (n : nat) (s : string) : string :=
  match n, s with
  | O, _ => s
  | S _, EmptyString => EmptyString
  | S k, String _ s' => drop k s'
  end.

Fixpoint take (n : nat) (s : string) : string :=
  match n, s with
  | O, _ => EmptyString
  | S _, EmptyString => EmptyString
  | S k, String c s' => String c (take k s')
  end.

(** [s.endswith(p)] *)
Definition ends_with (p s : string) : bool :=
  (String.length p <=? String.length s)%nat
  && String.eqb (drop (String.length s - String.length p) s) p.

(** [s.find(old)]: the least index at which [old] occurs. *)
Fixpoint find (old s : string) : option nat :=
  if starts_with old s then Some O
  else match s with
       | EmptyString => None
       | String _ s' => S <$> find old s'
       end.

(** [old in s] *)
Definition contains (old s : string) : bool :=
  match find old s with Some _ => true | None => false end.

(** [s.replace] of the empty string puts [new] before every character and at the end. *)
Fixpoint interleave (new s : string) : string :=
  match s with
  | EmptyString => new
  | String c s' => new +:+ String c (interleave new s')
  end.

(** The scan of [str.replace]: left to right, occurrences that do not
    overlap.  [skip] counts the characters of the occurrence just replaced
    that are still to be passed over. *)
Fixpoint replace_from (old new : string) (skip : nat) (s : string) : string :=
  match s with
  | EmptyString => EmptyString
  | String c s' =>
      match skip with
      | S k => replace_from old new k s'
      | O =>
          if starts_with old s
          then new +:+ replace_from old new (String.length old - 1) s'
          else String c (replace_from old new O s')
      end
  end.

(** [s.replace(old, new)] *)
Definition replace (old new s : string) : string :=
  match old with
  | EmptyString => interleave new s
  | String _ _ => replace_from old new O s
  end.

(** Text-mode reading ([newline=None]): ["\r\n"] and a lone ["\r"] both
    arrive as ["\n"]. *)
Fixpoint decode_newlines (s : string) : string :=
  match s with
  | EmptyString => EmptyString
  | String c s' =>
      if Ascii.eqb c CR then
        String LF
          match s' with
          | EmptyString => EmptyString
          | String c' s'' =>
              if Ascii.eqb c' LF then decode_newlines s'' else decode_newlines s'
          end
      else String c (decode_newlines s')
  end.

(** Text-mode writing ([newline=None]): every ["\n"] leaves as [linesep]. *)
Fixpoint encode_newlines (linesep : string) (s : string) : string :=
  match s with
  | EmptyString => EmptyString
  | String c s' =>
      if Ascii.eqb c LF then linesep +:+ encode_newlines linesep s'
      else String c (encode_newlines linesep s')
  end.

(** No carriage return anywhere in [s]. *)
Fixpoint cr_free (s : string) : bool :=
  match s with
  | EmptyString => true
  | String c s' => negb (Ascii.eqb c CR) && cr_free s'
  end.

(** ["sep".join(parts)] *)
Fixpoint join (sep : string) (parts : list string) : string :=
  match parts with
  | [] => EmptyString
  | [p] => p
  | p :: rest => p +:+ sep +:+ join sep rest
  end.

End PyStr.

(** ** Paths ([pathlib.Path])

    A path is its list of components, read from the working directory; the
    empty list is the working directory itself ([Path.cwd()], [Path(".")]). *)

Abbreviation path := (list string).

Definition joinpath (p : path) (name : string) : path :=
  match name with
  | EmptyString => p            (* [p.joinpath] of the empty string is [p] *)
  | _ => p ++ [name]
  end.

(** [p.parent]; the parent of [Path(".")] is [Path(".")]. *)
Definition parent (p : path) : path := removelast p.

(** [p.name]; [Path(".").name] is the empty string. *)
Definition name (p : path) : string := default EmptyString (last p).

(** [q] lies in the tree rooted at [p] ([q] is [p] or below it). *)
Definition under (p q : path) : bool := bool_decide (p `prefix_of` q).

(** ** Exceptions, outcomes, the world *)

Inductive exn : Type :=
  | TyperExit (code : Z)
  | FileNotFoundError
  | FileExistsError
  | IsADirectoryError
  | NotADirectoryError
  | OSError
  | ShutilError
  | IndexError
  | KeyError
  | TypeError
  | ValueError
  | AttributeError
  | TOMLDecodeError
  | CalledProcessError
  | UnicodeDecodeError
  | PyException (msg : string).

Inductive res (A : Type) : Type :=
  | Ok (a : A)
  | Raise (e : exn).
Arguments Ok {A} a.
Arguments Raise {A} e.

Inductive node : Type :=
  | File (bytes : string)
  | Dir.

Record world : Type := World {
  w_fs : gmap path node;            (* the file system *)
  w_env : gmap string string;       (* [os.environ] *)
  w_out : list string;              (* what was printed, oldest first *)
  w_procs : list (list string * path);  (* external tools launched: argv, cwd *)
  w_now : Z;                        (* the instant [datetime.now(tz=UTC)] reads *)
}.

(** Calls the builder and the command line make on their collaborators,
    recorded at the call site. *)
Inductive call : Type :=
  | CallCreateExtension (module_path : path)
  | CallCreateWheel (module_path output_dir : path)
  | CallOrchestratorNew (module_path output_dir : path)
  | CallOrchestratorRun.

Record state : Type := State {
  st_world : world;
  st_calls : list call;
}.

(** State and exceptions: a computation maps a state to an outcome and the
    state it leaves behind; a raised exception keeps the effects made so far. *)
Definition SE (S A : Type) : Type := S → res A * S.

Definition ret {S A} (a : A) : SE S A := λ s, (Ok a, s).

Definition raise {S A} (e : exn) : SE S A := λ s, (Raise e, s).

Definition bind {S A B} (m : SE S A) (k : A → SE S B) : SE S B :=
  λ s, match m s with
       | (Ok a, s') => k a s'
       | (Raise e, s') => (Raise e, s')
       end.

#[global] Instance SE_ret {S} : MRet (SE S) := λ A, @ret S A.
#[global] Instance SE_bind {S} : MBind (SE S) := λ A B k m, @bind S A B m k.

(** [try: m except <handled>: h]; a handler that answers [None] does not
    match the exception, which then propagates. *)
Definition try_except {S A} (m : SE S A) (h : exn → option (SE S A)) : SE S A :=
  λ s, match m s with
       | (Ok a, s') => (Ok a, s')
       | (Raise e, s') =>
           match h e with
           | Some k => k s'
           | None => (Raise e, s')
           end
       end.

(** [try: m finally: fin] *)
Definition try_finally {S A} (m : SE S A) (fin : SE S unit) : SE S A :=
  λ s, match m s with
       | (r, s') =>
           match fin s' with
           | (Ok _, s'') => (r, s'')
           | (Raise e, s'') => (Raise e, s'')
           end
       end.

(** [with suppress(Exception): m] *)
Definition suppress {S} (m : SE S unit) : SE S unit :=
  try_except m (λ _, Some (ret ())).

(** [for x in xs: body x] *)
Fixpoint for_each {S A} (xs : list A) (body : A → SE S unit) : SE S unit :=
  match xs with
  | [] => ret ()
  | x :: rest => body x ;; for_each rest body
  end.

Abbreviation W := (SE world).
Abbreviation M := (SE state).

Definition liftW {A} (m : W A) : M A :=
  λ s, match m (st_world s) with
       | (r, w') => (r, State w' (st_calls s))
       end.

Definition log_call (c : call) : M unit :=
  λ s, (Ok (), State (st_world s) (st_calls s ++ [c])).

(** ** The file system *)

(** What a path denotes; the working directory always exists. *)
Definition stat (fs : gmap path node) (p : path) : option node :=
  match p with
  | [] => Some Dir
  | _ => fs !! p
  end.

Definition is_dir (fs : gmap path node) (p : path) : bool :=
  match stat fs p with Some Dir => true | _ => false end.

Definition is_file (fs : gmap path node) (p : path) : bool :=
  match stat fs p with Some (File _) => true | _ => false end.

Definition exists_ (fs : gmap path node) (p : path) : bool :=
  match stat fs p with Some _ => true | None => false end.

Definition get_fs : W (gmap path node) := λ w, (Ok (w_fs w), w).

Definition put_fs (fs : gmap path node) : W unit :=
  λ w, (Ok (), World fs (w_env w) (w_out w) (w_procs w) (w_now w)).

(** [rich.print] and [console.print] *)
Definition print (msg : string) : W unit :=
  λ w, (Ok (), World (w_fs w) (w_env w) (w_out w ++ [msg]) (w_procs w) (w_now w)).

(** [environ.get(key, default)] *)
Definition environ_get (key dflt : string) : W string :=
  λ w, (Ok (default dflt (w_env w !! key)), w).

(** [environ.update({key: value})] *)
Definition environ_update (key value : string) : W unit :=
  λ w, (Ok (), World (w_fs w) (<[key := value]> (w_env w)) (w_out w) (w_procs w) (w_now w)).

(** [datetime.now(tz=UTC)] *)
Definition datetime_now : W Z := λ w, (Ok (w_now w), w).

(** [p.exists()] *)
Definition path_exists (p : path) : W bool :=
  fs ← get_fs; ret (exists_ fs p).

(** [p.is_dir()] *)
Definition path_is_dir (p : path) : W bool :=
  fs ← get_fs; ret (is_dir fs p).

(** [p.mkdir(exist_ok=True)] *)
Definition mkdir_exist_ok (p : path) : W unit :=
  fs ← get_fs;
  match stat fs p with
  | Some Dir => ret ()
  | Some (File _) => raise FileExistsError
  | None =>
      match stat fs (parent p) with
      | Some Dir => put_fs (<[p := Dir]> fs)
      | Some (File _) => raise NotADirectoryError
      | None => raise FileNotFoundError
      end
  end.

(** Opening [p] for writing and writing [bytes]: the file is truncated, or
    created when its directory is there. *)
Definition write_bytes (p : path) (bytes : string) : W unit :=
  fs ← get_fs;
  match stat fs p with
  | Some Dir => raise IsADirectoryError
  | Some (File _) => put_fs (<[p := File bytes]> fs)
  | None =>
      match stat fs (parent p) with
      | Some Dir => put_fs (<[p := File bytes]> fs)
      | Some (File _) => raise NotADirectoryError
      | None => raise FileNotFoundError
      end
  end.

(** [open(p, "rb").read()] *)
Definition read_bytes (p : path) : W string :=
  fs ← get_fs;
  match stat fs p with
  | Some (File bytes) => ret bytes
  | Some Dir => raise IsADirectoryError
  | None => raise FileNotFoundError
  end.

(** [p.unlink(missing_ok=True)] *)
Definition unlink_missing_ok (p : path) : W unit :=
  fs ← get_fs;
  match stat fs p with
  | None => ret ()
  | Some (File _) => put_fs (delete p fs)
  | Some Dir => raise IsADirectoryError
  end.

(** The entries directly inside [d]. *)
Definition children (fs : gmap path node) (d : path) : list path :=
  filter (λ k, k ≠ [] ∧ parent k = d) (elements (dom fs)).

(** [p.rmdir()]: only an empty directory goes. *)
Definition rmdir (p : path) : W unit :=
  fs ← get_fs;
  match stat fs p with
  | Some Dir =>
      match p, children fs p with
      | _ :: _, [] => put_fs (delete p fs)
      | _, _ => raise OSError
      end
  | Some (File _) => raise NotADirectoryError
  | None => raise FileNotFoundError
  end.

(** [shutil.rmtree(p)] *)
Definition rmtree (p : path) : W unit :=
  fs ← get_fs;
  match stat fs p with
  | Some Dir => put_fs (filter (λ kv, ¬ p `prefix_of` kv.1) fs)
  | Some (File _) => raise NotADirectoryError
  | None => raise FileNotFoundError
  end.

(** [os.makedirs] as [shutil.copytree] uses it for the parents of its
    destination: every missing ancestor of [p] becomes a directory. *)
Definition make_ancestors (fs : gmap path node) (p : path) : gmap path node :=
  foldr (λ n acc, match stat acc (take n p) with
                  | None => <[take n p := Dir]> acc
                  | Some _ => acc
                  end)
        fs (seq 1 (length p - 1)).

(** No proper ancestor of [p] is a regular file. *)
Definition ancestors_clear (fs : gmap path node) (p : path) : bool :=
  forallb (λ n, negb (is_file fs (take n p))) (seq 1 (length p - 1)).

(** What each path denotes once the tree at [src] has been renamed to [dst]. *)
Definition renamed (src dst : path) (fs : gmap path node) (k : path) : option node :=
  if under dst k then fs !! (src ++ drop (length dst) k)
  else if under src k then None
  else fs !! k.

Definition rename_tree (src dst : path) (fs : gmap path node) : gmap path node :=
  map_imap (λ k _, renamed src dst fs k)
    (gset_to_gmap () (dom fs ∪ set_map (λ k, dst ++ drop (length src) k) (dom fs))).

(** [shutil.move(src, dst)]: into [dst] when [dst] is a directory, onto
    [dst] otherwise; [os.rename] where it applies, copy and delete where it
    does not. *)
Definition move_onto (src real_dst : path) : W unit :=
  fs ← get_fs;
  match stat fs src with
  | None => raise FileNotFoundError
  | Some (File bytes) =>
      match stat fs (parent real_dst) with
      | Some Dir => put_fs (<[real_dst := File bytes]> (delete src fs))
      | Some (File _) => raise NotADirectoryError
      | None => raise FileNotFoundError
      end
  | Some Dir =>
      if under src real_dst then raise ShutilError
      else if exists_ fs real_dst then raise FileExistsError
      else if is_dir fs (parent real_dst) then put_fs (rename_tree src real_dst fs)
      else if ancestors_clear fs real_dst
           then put_fs (rename_tree src real_dst (make_ancestors fs real_dst))
           else raise NotADirectoryError
  end.

Definition move (src dst : path) : W unit :=
  fs ← get_fs;
  if is_dir fs dst then
    if bool_decide (src = dst) then ret ()
    else
      let real_dst := joinpath dst (name src) in
      if exists_ fs real_dst then raise ShutilError
      else move_onto src real_dst
  else move_onto src dst.

(** Every directory on the way from [d] down to [k] (both excluded) exists. *)
Definition reachable (fs : gmap path node) (d k : path) : bool :=
  forallb (λ n, is_dir fs (take n k)) (seq (S (length d)) (length k - S (length d))).

(** ** Collaborators outside the repository's sources *)

Inductive proc_result : Type :=
  | ProcNotFound            (* the executable could not be started *)
  | ProcExit (code : Z).

(** A TOML document as [tomllib] hands it over. *)
Inductive toml : Type :=
  | TStr (s : string)
  | TScalar                             (* integer, float, boolean, date *)
  | TArr (items : list toml)
  | TTable (entries : list (string * toml)).

(** [datetime]: with or without a UTC offset. *)
Inductive datetime : Type :=
  | Naive (wall : Z)
  | Aware (instant : Z).

Class Host : Type := {
  (** [platform.system()] *)
  platform_system : string;
  (** [codeenigma.constants.EXTENSION_COMPILED_MODULE] *)
  EXTENSION_COMPILED_MODULE : string;
  (** [codeenigma.__version__] *)
  codeenigma_version : string;
  (** [repr] of a string *)
  py_repr : string → string;
  (** [str] of a path *)
  path_str : path → string;
  (** [sys.executable] *)
  sys_executable : string;
  (** the bytes of a template file shipped beside the code *)
  template_source : string → string;
  (** [Template(text).safe_substitute(mapping)] *)
  safe_substitute : string → list (string * string) → string;
  (** [tomllib.load]: [None] for a document that does not parse *)
  tomllib_loads : string → option (list (string * toml));
  (** the codec of the locale, with which [open(p)] and [p.read_text()]
      read, can decode these bytes; strings here are byte strings, as the
      text is under UTF-8 and the other codecs that keep ASCII in place *)
  locale_decodes : string → bool;
  (** [tomllib] reads UTF-8 only: what it parses, the codec of the locale
      (UTF-8 unless the platform says otherwise) is taken to decode *)
  tomllib_loads_decodes :
    ∀ bytes, is_Some (tomllib_loads bytes) → locale_decodes bytes = true;
  (** [str] of a TOML value, as an f-string formats it *)
  toml_format : toml → string;
  (** an external tool run to its end: how it ended, what it left on disk *)
  run_process : list string → path → gmap path node → proc_result * gmap path node;
  (** the order in which the operating system lists directory entries *)
  scan_order : list path → list path;
  scan_order_perm : ∀ l, scan_order l ≡ₚ l;
  (** [datetime.fromisoformat]: [None] where it raises [ValueError] *)
  fromisoformat : string → option datetime;
  (** [traceback.format_exception] joined by newlines *)
  format_exception : exn → string;
  (** [CodeEnigmaObfuscationStrategy(SECRET_KEY, NONCE).get_runtime_code()] *)
  codeenigma_runtime_code : string;
  (** [ExpiryExtension(expiration).get_code()] *)
  expiry_code : datetime → string;
  (** [Orchestrator(module_path, strategy, runtime_builder, output_dir).run()];
      the third argument is the runtime builder's [build]. *)
  orchestrator_run : path → path → (path → M unit) → M unit;
}.

Section WithHost.
Context `{!Host}.

(** [os.linesep] *)
Definition linesep : string :=
  if String.eqb platform_system "Windows" then String PyStr.CR (String PyStr.LF EmptyString) else String PyStr.LF EmptyString.

(** [p.read_text()], [open(p).read()]: bytes the codec of the locale cannot
    decode raise [UnicodeDecodeError]. *)
Definition read_text (p : path) : W string :=
  bytes ← read_bytes p;
  if locale_decodes bytes then ret (PyStr.decode_newlines bytes)
  else raise UnicodeDecodeError.

(** [p.write_text(text)], [open(p, "w").write(text)] *)
Definition write_text (p : path) (text : string) : W unit :=
  write_bytes p (PyStr.encode_newlines linesep text).

(** [list(d.glob(pattern))]: the entries of [d] whose name [matches]. *)
Definition glob (d : path) (matches : string → bool) : W (list path) :=
  fs ← get_fs;
  ret (if is_dir fs d
       then scan_order (filter (λ k, matches (name k) = true) (children fs d))
       else []).

(** [d.rglob(pattern)]: the same at any depth below [d]. *)
Definition rglob (d : path) (matches : string → bool) : W (list path) :=
  fs ← get_fs;
  ret (if is_dir fs d
       then scan_order
              (filter (λ k, d ≠ k ∧ under d k = true ∧ reachable fs d k = true
                            ∧ matches (name k) = true)
                      (elements (dom fs)))
       else []).

(** [xs[-1]] *)
Definition last_item {A} (xs : list A) : W A :=
  match last xs with
  | Some x => ret x
  | None => raise IndexError
  end.

(** [subprocess.run(argv, cwd=cwd, check=True)] *)
Definition subprocess_run (argv : list string) (cwd : path) : W unit :=
  λ w,
    let w1 := World (w_fs w) (w_env w) (w_out w) (w_procs w ++ [(argv, cwd)]) (w_now w) in
    match run_process argv cwd (w_fs w) with
    | (ProcNotFound, _) => (Raise FileNotFoundError, w1)
    | (ProcExit code, fs') =>
        let w2 := World fs' (w_env w) (w_out w) (w_procs w ++ [(argv, cwd)]) (w_now w) in
        if (code =? 0)%Z then (Ok (), w2) else (Raise CalledProcessError, w2)
    end.

(** ** TOML values as Python sees them *)

(** An outcome that touches no state. *)
Definition of_res {S A} (r : res A) : SE S A := λ s, (r, s).

(** [d[key]] on a table; anything else cannot be indexed by a string. *)
Definition toml_getitem (v : toml) (key : string) : res toml :=
  match v with
  | TTable entries =>
      match list_find (λ kv, kv.1 = key) entries with
      | Some (_, (_, x)) => Ok x
      | None => Raise KeyError
      end
  | _ => Raise TypeError
  end.

(** [d[k1][k2]...] *)
Fixpoint toml_index (v : toml) (keys : list string) : res toml :=
  match keys with
  | [] => Ok v
  | key :: rest =>
      match toml_getitem v key with
      | Ok x => toml_index x rest
      | Raise e => Raise e
      end
  end.

(** [d.get(key, dflt)]; only tables have [get]. *)
Definition toml_get (v : toml) (key : string) (dflt : toml) : W toml :=
  match v with
  | TTable entries =>
      match list_find (λ kv, kv.1 = key) entries with
      | Some (_, (_, x)) => ret x
      | None => ret dflt
      end
  | _ => raise AttributeError
  end.

(** [needle in v]: substring of a string, member of an array, key of a
    table. *)
Definition toml_contains (needle : string) (v : toml) : W bool :=
  match v with
  | TStr s => ret (PyStr.contains needle s)
  | TArr items =>
      ret (existsb (λ x, match x with TStr s => String.eqb s needle | _ => false end) items)
  | TTable entries => ret (existsb (λ kv, String.eqb kv.1 needle) entries)
  | TScalar => raise TypeError
  end.

(** [tomllib.load(open(p, "rb"))] *)
Definition tomllib_load (p : path) : W toml :=
  bytes ← read_bytes p;
  match tomllib_loads bytes with
  | Some entries => ret (TTable entries)
  | None => raise TOMLDecodeError
  end.

(** ** The bundlers ([bundler/poetry.py], [bundler/uv.py], [bundler/standard.py]) *)

(** The interface the runtime builder programs against ([IBundler]). *)
Record IBundler : Type := {
  create_extension : path → option path → W path;
  create_wheel : path → option path → W (option path);
}.

Definition DQ : ascii := "034"%char.

(** The text [readme = "README.md"]. *)
Definition README_LINE : string :=
  "readme = " +:+ String DQ ("README.md" +:+ String DQ EmptyString).

(** The name matches [*<ext>]. *)
Definition matches_suffix (ext : string) (n : string) : bool := PyStr.ends_with ext n.

(** The name matches [*<version>*.whl]. *)
Definition matches_wheel (version : string) (n : string) : bool :=
  PyStr.ends_with ".whl" n
  && PyStr.contains version (PyStr.take (String.length n - 4) n).

(** The name matches [<stem>*.<ext>]. *)
Definition matches_stem_ext (stem ext : string) (n : string) : bool :=
  PyStr.starts_with stem n
  && PyStr.ends_with ("." +:+ ext) (PyStr.drop (String.length stem) n).

(** The success messages; the check mark that opens them in the source is
    left out. *)
Definition extension_built_msg (p : path) : string :=
  "[green]Extension built successfully (" +:+ path_str p +:+ ")[/green]".

Definition wheel_built_msg (p : path) : string :=
  "[green]Wheel built successfully (" +:+ path_str p +:+ ")[/green]".

End WithHost.

Module PoetryBundler.
Section WithHost.
Context `{!Host}.

Definition remove_readme_before_build (pyproject_path : path) : W unit :=
  content ← read_text pyproject_path;
  write_text pyproject_path (PyStr.replace README_LINE EmptyString content).

Definition create_wheel (module_path : path) (output_dir : option path)
    (remove_readme : bool) : W (option path) :=
  let pyproject := joinpath (parent module_path) "pyproject.toml" in
  found ← path_exists pyproject;
  if negb found then raise FileNotFoundError
  else
    content ← tomllib_load pyproject;
    version ← try_except
                (of_res (toml_index content ["tool"; "poetry"; "version"]))
                (λ e, match e with
                      | KeyError =>
                          Some (raise (PyException
                                  "Invalid pyproject.toml file, not in poetry format"))
                      | _ => None
                      end);
    (if remove_readme then remove_readme_before_build pyproject else ret ());;
    building ← environ_get "CODEENIGMA_BUILDING_EXE" "0";
    if String.eqb building "0" then
      print "[bold blue]Building wheel using poetry[/bold blue]";;
      subprocess_run ["poetry"; "build"; "-f"; "wheel"] (parent module_path);;
      wheels ← glob (joinpath (parent module_path) "dist")
                 (matches_wheel (toml_format version));
      wheel_file ← last_item wheels;
      match output_dir with
      | Some out =>
          mkdir_exist_ok out;;
          let final_wheel_location := joinpath out (name wheel_file) in
          move wheel_file final_wheel_location;;
          print (wheel_built_msg final_wheel_location);;
          ret (Some final_wheel_location)
      | None =>
          print (wheel_built_msg wheel_file);;
          ret (Some wheel_file)
      end
    else ret None.

(** The compile step of [create_extension]: through poetry, and with the
    running interpreter when that exits with an error. *)
Definition build_ext (location : path) : W unit :=
  try_except
    (subprocess_run ["poetry"; "run"; "python"; "setup.py"; "build_ext"; "--inplace"]
       location)
    (λ e, match e with
          | CalledProcessError =>
              Some (subprocess_run [sys_executable; "setup.py"; "build_ext"; "--inplace"]
                      location)
          | _ => None
          end).

Definition create_extension (module_path : path) (output_dir : option path) : W path :=
  nested ← path_exists (joinpath module_path "setup.py");
  let location := if (nested : bool) then module_path else parent module_path in
  found ← path_exists (joinpath location "setup.py");
  if negb found then raise FileNotFoundError
  else
    print "[bold blue]Building extension using poetry[/bold blue]";;
    build_ext location;;
    candidates ← glob location (matches_suffix EXTENSION_COMPILED_MODULE);
    module_file ← last_item candidates;
    rmtree (joinpath location "build");;
    match output_dir with
    | Some out =>
        mkdir_exist_ok out;;
        move module_file (joinpath out (name module_file));;
        print (extension_built_msg (joinpath out (name module_file)));;
        ret (joinpath out (name module_file))
    | None =>
        print (extension_built_msg module_file);;
        ret module_file
    end.

(** A [PoetryBundler()] called without keyword arguments. *)
Definition new : IBundler :=
  Build_IBundler create_extension (λ m o, create_wheel m o true).

End WithHost.
End PoetryBundler.

Module UVBundler.
Section WithHost.
Context `{!Host}.

(** The module's own constant: [".so"] unless the platform is Windows. *)
Definition EXTENSION_COMPILED_MODULE : string :=
  if negb (String.eqb platform_system "Windows") then ".so" else ".pyd".

(** The content is read twice; the second reading is the one used. *)
Definition remove_readme_before_build (pyproject_path : path) : W unit :=
  _ ← read_text pyproject_path;
  content ← read_text pyproject_path;
  write_text pyproject_path (PyStr.replace README_LINE EmptyString content).

Definition create_wheel (module_path : path) (output_dir : option path)
    (remove_readme : bool) : W (option path) :=
  let pyproject_file := joinpath (parent module_path) "pyproject.toml" in
  found ← path_exists pyproject_file;
  if negb found then raise FileNotFoundError
  else
    content ← tomllib_load pyproject_file;
    version ← try_except
                (of_res (toml_index content ["project"; "version"]))
                (λ e, match e with
                      | KeyError =>
                          Some (try_except
                                  (of_res (toml_index content
                                             ["tool"; "poetry"; "version"]))
                                  (λ e', match e' with
                                         | KeyError =>
                                             Some (raise (PyException
                                                     "Invalid pyproject.toml file, missing version"))
                                         | _ => None
                                         end))
                      | _ => None
                      end);
    (if remove_readme then remove_readme_before_build pyproject_file else ret ());;
    print "[bold blue]Building wheel using uv[/bold blue]";;
    subprocess_run ["uv"; "pip"; "install"; "-e"; "."] (parent module_path);;
    subprocess_run ["uv"; "run"; "python"; "-m"; "build"; "--wheel"] (parent module_path);;
    wheels ← glob (joinpath (parent module_path) "dist")
               (matches_wheel (toml_format version));
    wheel_file ← last_item wheels;
    match output_dir with
    | Some out =>
        mkdir_exist_ok out;;
        let final_wheel_location := joinpath out (name wheel_file) in
        move wheel_file final_wheel_location;;
        print (wheel_built_msg final_wheel_location);;
        ret (Some final_wheel_location)
    | None =>
        print (wheel_built_msg wheel_file);;
        ret (Some wheel_file)
    end.

(** The compile step of [create_extension]: through uv, and with the
    running interpreter when that exits with an error. *)
Definition build_ext (location : path) : W unit :=
  try_except
    (subprocess_run ["uv"; "run"; "python"; "setup.py"; "build_ext"; "--inplace"]
       location)
    (λ e, match e with
          | CalledProcessError =>
              Some (subprocess_run [sys_executable; "setup.py"; "build_ext"; "--inplace"]
                      location)
          | _ => None
          end).

Definition create_extension (module_path : path) (output_dir : option path) : W path :=
  nested ← path_exists (joinpath module_path "setup.py");
  let location := if (nested : bool) then module_path else parent module_path in
  found ← path_exists (joinpath location "setup.py");
  if negb found then raise FileNotFoundError
  else
    print "[bold blue]Building extension using uv[/bold blue]";;
    build_ext location;;
    candidates ← glob location (matches_suffix EXTENSION_COMPILED_MODULE);
    module_file ← last_item candidates;
    rmtree (joinpath location "build");;
    match output_dir with
    | Some out =>
        mkdir_exist_ok out;;
        move module_file (joinpath out (name module_file));;
        print (extension_built_msg (joinpath out (name module_file)));;
        ret (joinpath out (name module_file))
    | None =>
        print (extension_built_msg module_file);;
        ret module_file
    end.

Definition new : IBundler :=
  Build_IBundler create_extension (λ m o, create_wheel m o true).

End WithHost.
End UVBundler.

Module StandardBundler.
Section WithHost.
Context `{!Host}.

Definition _check_for_setuptools_project (project_root : path) : W unit :=
  has_setup ← path_exists (joinpath project_root "setup.py");
  status ←
    (if (has_setup : bool) then ret true
     else
       has_pyproject ← path_exists (joinpath project_root "pyproject.toml");
       if (has_pyproject : bool) then
         try_except
           (content ← tomllib_load (joinpath project_root "pyproject.toml");
            build_system ← toml_get content "build-system" (TTable []);
            build_backend ← toml_get build_system "build-backend" (TStr EmptyString);
            toml_contains "setuptools" build_backend)
           (λ e, match e with KeyError => Some (ret false) | _ => None end)
       else ret false);
  if negb status then raise ValueError else ret ().

Definition create_wheel (module_path : path) (output_dir : option path)
    : W (option path) :=
  _check_for_setuptools_project (parent module_path);;
  print "[bold blue]Building wheel using standard setuptools[/bold blue]";;
  try_except
    (subprocess_run ["uv"; "pip"; "wheel"; "--no-deps"; "-e"; "."] (parent module_path))
    (λ e, match e with
          | CalledProcessError | FileNotFoundError =>
              Some (subprocess_run ["pip"; "install"; "build"] [];;
                    subprocess_run [sys_executable; "-m"; "build"; "--wheel"]
                      (parent module_path))
          | _ => None
          end);;
  wheels ← glob (joinpath (parent module_path) "dist") (matches_suffix ".whl");
  wheel_file ← last_item wheels;
  match output_dir with
  | Some out =>
      mkdir_exist_ok out;;
      let final_wheel_location := joinpath out (name wheel_file) in
      move wheel_file final_wheel_location;;
      print (wheel_built_msg final_wheel_location);;
      ret (Some final_wheel_location)
  | None =>
      print (wheel_built_msg wheel_file);;
      ret (Some wheel_file)
  end.

Definition create_extension (module_path : path) (output_dir : option path) : W path :=
  _check_for_setuptools_project (parent module_path);;
  nested ← path_exists (joinpath module_path "setup.py");
  let location := if (nested : bool) then module_path else parent module_path in
  subprocess_run [sys_executable; "setup.py"; "build_ext"; "--inplace"] location;;
  candidates ← glob location (matches_suffix EXTENSION_COMPILED_MODULE);
  module_file ← last_item candidates;
  let build_path := joinpath location "build" in
  rmtree build_path;;
  let module_file_path := joinpath location (name module_file) in
  match output_dir with
  | Some out =>
      mkdir_exist_ok out;;
      move module_file module_file_path;;
      print (extension_built_msg module_file_path);;
      ret module_file_path
  | None =>
      print (extension_built_msg module_file);;
      ret module_file
  end.

Definition new : IBundler := Build_IBundler create_extension create_wheel.

End WithHost.
End StandardBundler.

(** ** The runtime builder ([runtime/cython/builder.py]) *)

(** [BaseObfuscationStrategy], as far as the builder uses it. *)
Record BaseObfuscationStrategy : Type := {
  get_runtime_code : string;
}.

(** [IExtension] *)
Record IExtension : Type := {
  get_code : string;
}.

Record CythonRuntimeBuilder : Type := {
  strategy : BaseObfuscationStrategy;
  bundler : IBundler;
  extensions : list IExtension;
}.

Section Builder.
Context `{!Host}.

(** A template file, read in text mode. *)
Definition read_template (file_name : string) : string :=
  PyStr.decode_newlines (template_source file_name).

(** The text of the generated [setup.py]. *)
Definition setup_code : string :=
  safe_substitute (read_template "setup.py.template")
    [("version", py_repr codeenigma_version)].

Definition create_cython_setup (output_path : path) : W unit :=
  print "[bold blue]Creating setup.py file for compiling the codeenigma.pyx file [/bold blue]";;
  write_text (joinpath output_path "setup.py") setup_code.

Definition create_init_file (output_path : path) : W unit :=
  print "[bold blue]Creating codeenigma_runtime/__init__.py file[/bold blue]";;
  let init_code :=
    safe_substitute (read_template "init.py.template")
      [("platform", py_repr platform_system)] in
  write_text (joinpath output_path "__init__.py") init_code;;
  (* shutil.copyfile of the stub template *)
  write_bytes (joinpath output_path "codeenigma_runtime.pyi")
    (template_source "runtime.pyi.template").

Definition create_pyproject_toml (module_file_path : string) (output_path : path)
    : W unit :=
  print "[bold blue]Creating pyproject.toml file for codeenigma_runtime pkg[/bold blue]";;
  let pyproject_content :=
    safe_substitute (read_template "pyproject.toml.template")
      [("version", py_repr codeenigma_version); ("module_file_path", module_file_path)] in
  write_text (joinpath output_path "pyproject.toml") pyproject_content.

(** The text the loop of [prepare_runtime_code] accumulates in [code]. *)
Definition runtime_code (self : CythonRuntimeBuilder) : string :=
  fold_left (λ code extension, code +:+ get_code extension)
    (extensions self) (get_runtime_code (strategy self)).

Definition prepare_runtime_code (self : CythonRuntimeBuilder) (runtime_pyx_path : path)
    : W unit :=
  write_text runtime_pyx_path (runtime_code self).

(** The intermediate files the builder deletes after a compile. *)
Definition temp_files : list string :=
  ["setup.py"; "codeenigma_runtime.pyx"; "codeenigma_runtime.c"].

(** Step 1 of [build]: the [.pyx] source and [setup.py]. *)
Definition build_prepare (self : CythonRuntimeBuilder) (output_dir : path) : W unit :=
  print "[bold blue]Building the runtime package[/bold blue]";;
  mkdir_exist_ok output_dir;;
  let codeenigma_runtime_pyx := joinpath output_dir "codeenigma_runtime.pyx" in
  prepare_runtime_code self codeenigma_runtime_pyx;;
  create_cython_setup output_dir.

(** "Clean up intermediate files" *)
Definition build_cleanup (output_dir : path) : W unit :=
  for_each temp_files (λ temp_file, unlink_missing_ok (joinpath output_dir temp_file));;
  suppress (rmdir (joinpath output_dir "build")).

(** Steps 3 to 5 of [build]: the package layout, its metadata, the wheel. *)
Definition build_pack (self : CythonRuntimeBuilder) (output_dir module_file : path)
    : M unit :=
  liftW (print "[bold blue]Packing the runtime package[/bold blue]");;
  let codeenigma_runtime_dir := joinpath output_dir "codeenigma_runtime" in
  liftW (mkdir_exist_ok codeenigma_runtime_dir);;
  let path_module := joinpath codeenigma_runtime_dir (name module_file) in
  liftW (move module_file path_module);;
  let init_path := joinpath output_dir "codeenigma_runtime" in
  liftW (create_init_file init_path);;
  liftW (create_pyproject_toml ("codeenigma_runtime/" +:+ name module_file) output_dir);;
  log_call (CallCreateWheel codeenigma_runtime_dir output_dir);;
  liftW (create_wheel (bundler self) codeenigma_runtime_dir (Some output_dir));;
  liftW (print "[green]Runtime package built successfully[/green]").

Definition build (self : CythonRuntimeBuilder) (output_dir : path) : M unit :=
  liftW (build_prepare self output_dir);;
  log_call (CallCreateExtension output_dir);;
  module_file ← liftW (create_extension (bundler self) output_dir None);
  liftW (build_cleanup output_dir);;
  build_pack self output_dir module_file.

End Builder.

(** ** The command line ([cli.py]) *)

(** The variable [expiration_date] of [obfuscate]: absent, the string given
    on the command line, or the [datetime] parsed from it. *)
Inductive expiration : Type :=
  | ExpNone
  | ExpStr (s : string)
  | ExpDate (d : datetime).

(** Python truth value: [None] and the empty string are false. *)
Definition truthy (e : expiration) : bool :=
  match e with
  | ExpNone => false
  | ExpStr EmptyString => false
  | ExpStr _ => true
  | ExpDate _ => true
  end.

Section Cli.
Context `{!Host}.

(** The banner is one printed panel; only its title is kept. *)
Definition display_banner : W unit :=
  print ("[bold cyan]Welcome to CodeEnigma v" +:+ codeenigma_version +:+ "[/bold cyan]").

(** [a < b] with [b] carrying a UTC offset: a naive [a] cannot be compared. *)
Definition datetime_lt_aware (a : datetime) (b : Z) : W bool :=
  match a with
  | Aware t => ret (t <? b)%Z
  | Naive _ => raise TypeError
  end.

Definition ExpiryExtension (d : datetime) : IExtension :=
  {| get_code := expiry_code d |}.

Definition CodeEnigmaObfuscationStrategy : BaseObfuscationStrategy :=
  {| get_runtime_code := codeenigma_runtime_code |}.

Definition obfuscate (module_path : path) (expiration_date : option string)
    (output_dir : path) (verbose : bool) : M unit :=
  liftW display_banner;;
  found ← liftW (path_exists module_path);
  if negb found then
    liftW (print ("[bold red]Error: Module path '" +:+ path_str module_path
                  +:+ "' does not exist[/bold red]"));;
    raise (TyperExit 1)
  else
  is_directory ← liftW (path_is_dir module_path);
  if negb is_directory then
    liftW (print "[bold red]Error: Module path must be a directory containing Python files[/bold red]");;
    raise (TyperExit 1)
  else
  let expiration_date := match expiration_date with
                         | None => ExpNone
                         | Some s => ExpStr s
                         end in
  expiration_date ←
    (if truthy expiration_date then
       match expiration_date with
       | ExpStr s =>
           match fromisoformat s with
           | Some d => ret (ExpDate d)
           | None =>
               liftW (print "[bold red]Error: Invalid expiration date format. Please use YYYY-MM-DD HH:MM:SS+0000[/bold red]");;
               raise (TyperExit 1)
           end
       | other => ret other
       end
     else ret expiration_date);
  past ←
    (if truthy expiration_date then
       match expiration_date with
       | ExpDate d => now ← liftW datetime_now; liftW (datetime_lt_aware d now)
       | _ => raise TypeError        (* a string against a [datetime] *)
       end
     else ret false);
  if (past : bool) then
    liftW (print "[bold red]Error: Expiration date must be in the future[/bold red]");;
    raise (TyperExit 1)
  else
  let strategy := CodeEnigmaObfuscationStrategy in
  let bundler := PoetryBundler.new in
  let extensions := if truthy expiration_date then
                      match expiration_date with
                      | ExpDate d => [ExpiryExtension d]
                      | _ => []
                      end
                    else [] in
  let r := Build_CythonRuntimeBuilder strategy bundler extensions in
  log_call (CallOrchestratorNew module_path output_dir);;
  try_except
    ((if verbose then liftW (print "[bold]Starting codeenigma...[/bold]") else ret ());;
     log_call CallOrchestratorRun;;
     orchestrator_run module_path output_dir (build r);;
     (if verbose then
        liftW (print "[bold green]Obfuscation completed successfully![/bold green]");;
        liftW (print ("Output files saved to: " +:+ path_str output_dir))
      else ret ()))
    (λ e, Some (liftW (print ("[bold red]Error during obfuscation:[/bold red] "
                              +:+ format_exception e));;
                raise (TyperExit 1))).

Definition old_text : string := "from codeenigma_runtime".

Definition new_text (module_name : string) : string :=
  "from " +:+ module_name +:+ ".codeenigma_runtime".

(** The merged packaging of [build]: stubs rewritten, gatekeeper moved in. *)
Definition build_merge (module_path output_dir : path) : W path :=
  let current_dir : path := [] in
  let module_name := name (parent module_path) in
  let dist_path := current_dir ++ output_dir in
  let path_module_obfuscated := joinpath dist_path module_name in
  let runtime_path := joinpath dist_path "codeenigma_runtime" in
  let dest := joinpath path_module_obfuscated "codeenigma_runtime" in
  files ← rglob path_module_obfuscated (matches_suffix ".py");
  for_each files (λ file,
    file_text ← read_text file;
    let text_replaced := PyStr.replace old_text (new_text module_name) file_text in
    write_text file text_replaced);;
  move runtime_path dest;;
  ret dest.

(** The rest of the [try] block: the spec file and the [pyinstaller] run. *)
Definition build_exe (module_path output_dir dest : path) (exe_name : string) : W unit :=
  let module_name := name (parent module_path) in
  let dist_path : path := [] ++ output_dir in
  candidates ← glob dest (matches_stem_ext "codeenigma_runtime" EXTENSION_COMPILED_MODULE);
  runtime_compiled ← last_item candidates;
  let t := read_template "pyinstaller.spec.template" in
  let module_spec :=
    safe_substitute t
      [("entry_point", py_repr (path_str module_path));
       ("compiled_codeenigma", py_repr (path_str runtime_compiled));
       ("exe_name", exe_name)] in
  let dest_spec_file := joinpath dist_path (module_name +:+ ".spec") in
  write_text dest_spec_file module_spec;;
  subprocess_run ["pyinstaller"; path_str dest_spec_file; "--distpath"; path_str dist_path] [].

(** The body of the [try] block of [build]. *)
Definition build_body (module_path output_dir : path) (exe_name : string) : W unit :=
  print "[bold]Starting pyinstaller build...[/bold]";;
  dest ← build_merge module_path output_dir;
  build_exe module_path output_dir dest exe_name.

(** The [build] command. *)
Definition build_command (module_path : path) (exe_name : string)
    (expiration_date : option string) (output_dir : path) (verbose : bool) : M unit :=
  liftW (environ_update "CODEENIGMA_BUILDING_EXE" "1");;
  obfuscate module_path expiration_date output_dir verbose;;
  try_finally
    (try_except
       (liftW (build_body module_path output_dir exe_name))
       (λ e, Some (liftW (print ("[bold red]Error during build:[/bold red] "
                                 +:+ format_exception e));;
                   raise (TyperExit 1))))
    (liftW (environ_update "CODEENIGMA_BUILDING_EXE" "0")).

End Cli.

(** ** Vocabulary of the statements *)

(** The fragments of the extensions, one after the other in the order of the
    sequence. *)
Definition fragments (exts : list IExtension) : string :=
  foldr (λ ext rest, get_code ext +:+ rest) EmptyString exts.

(** The strategy's routine followed by the fragments. *)
Definition runtime_text (self : CythonRuntimeBuilder) : string :=
  get_runtime_code (strategy self) +:+ fragments (extensions self).

(** The text of a file with every occurrence of the readme line cut out. *)
Definition once_removed (bytes : string) : string :=
  PyStr.replace README_LINE EmptyString (PyStr.decode_newlines bytes).

(** Where [create_extension] compiles: the module directory when it holds a
    [setup.py], its parent otherwise. *)
Definition setup_location (fs : gmap path node) (module_path : path) : path :=
  if exists_ fs (joinpath module_path "setup.py") then module_path else parent module_path.

(** No entry of directory [d] has a name that [matches]. *)
Definition no_match (fs : gmap path node) (d : path) (matches : string → bool) : Prop :=
  ∀ n, is_Some (fs !! (d ++ [n])) → matches n = false.

(** What [rglob] of [*.py] below [app] yields: the paths strictly below
    [app], reached through directories, whose name ends in [.py]. *)
Definition is_stub (fs : gmap path node) (app k : path) : Prop :=
  app ≠ k ∧ under app k = true ∧ reachable fs app k = true
  ∧ matches_suffix ".py" (name k) = true.

(** A computation keeps an invariant of the state, however it ends. *)
Definition preserved {S A} (I : S → Prop) (m : SE S A) : Prop :=
  ∀ s r s', m s = (r, s') → I s → I s'.

(** Nothing at path [k]. *)
Definition absent (k : path) (w : world) : Prop := w_fs w !! k = None.

(** The same world with another file system. *)
Definition with_fs (w : world) (fs : gmap path node) : world :=
  World fs (w_env w) (w_out w) (w_procs w) (w_now w).

(** The same world with one environment variable set. *)
Definition with_env (w : world) (key value : string) : world :=
  World (w_fs w) (<[key := value]> (w_env w)) (w_out w) (w_procs w) (w_now w).

(** The same world with more printed. *)
Definition printed (w : world) (msgs : list string) : world :=
  World (w_fs w) (w_env w) (w_out w ++ msgs) (w_procs w) (w_now w).

Section Vocabulary.
Context `{!Host}.


(** [k] is a regular file that [read_text] can read. *)
Definition readable (fs : gmap path node) (k : path) : bool :=
  match stat fs k with
  | Some (File bytes) => locale_decodes bytes
  | _ => false
  end.


End Vocabulary.

(** ** More vocabulary: the external tools as the bundlers call them *)

(** The same world with one more external tool on record. *)
Definition launched (w : world) (argv : list string) (cwd : path) : world :=
  World (w_fs w) (w_env w) (w_out w) (w_procs w ++ [(argv, cwd)]) (w_now w).

Definition poetry_build_ext : list string :=
  ["poetry"; "run"; "python"; "setup.py"; "build_ext"; "--inplace"].

Definition uv_build_ext : list string :=
  ["uv"; "run"; "python"; "setup.py"; "build_ext"; "--inplace"].

Section MoreVocabulary.
Context `{!Host}.

(** The compile command of the running interpreter. *)
Definition python_build_ext : list string :=
  [sys_executable; "setup.py"; "build_ext"; "--inplace"].

End MoreVocabulary.

(** What is left of a file system once the tree at [p] is deleted. *)
Definition without_tree (p : path) (fs : gmap path node) : gmap path node :=
  filter (λ kv : path * node, ¬ p `prefix_of` kv.1) fs.


(** The file system after [mkdir(exist_ok=True)] of a directory that is
    there or can be made. *)
Definition with_dir (out : path) (fs : gmap path node) : gmap path node :=
  match stat fs out with
  | None => <[out := Dir]> fs
  | Some _ => fs
  end.


(** ** A concrete host, for running the embedding on examples *)

Module Sample.

(** A toy codec: it decodes whatever has no byte 255, a byte UTF-8 never
    uses. *)
Definition decodes (bytes : string) : bool :=
  negb (PyStr.contains (String "255"%char EmptyString) bytes).

(** A toy [tomllib]: a document with a [[tool.poetry]] table has version
    [1.0.0], one with an unclosed bracket or a byte 255 does not parse, any
    other is empty. *)
Definition loads (bytes : string) : option (list (string * toml)) :=
  if decodes bytes then
    if PyStr.contains "[tool.poetry]" bytes
    then Some [("tool", TTable [("poetry", TTable [("version", TStr "1.0.0")])])]
    else if PyStr.contains "[[" bytes then None
    else Some []
  else None.

Definition loads_decodes (bytes : string) :
  is_Some (loads bytes) → decodes bytes = true.
Proof.
  unfold loads. destruct (decodes bytes); [reflexivity|].
  intros [entries Hnone]. discriminate Hnone.
Defined.

(** A stand-in for the external tools.  A marker file [FAIL] in the working
    directory makes any tool exit with status 1.  [build_ext --inplace]
    leaves a compiled module, its C source and a [build] directory unless
    a marker file [NOOUT] is there; [poetry build] leaves a wheel in
    [dist]; any other tool leaves nothing. *)
Definition process (argv : list string) (cwd : path) (fs : gmap path node)
    : proc_result * gmap path node :=
  if exists_ fs (cwd ++ ["FAIL"]) then (ProcExit 1, fs)
  else if bool_decide (last argv = Some "--inplace") then
    if exists_ fs (cwd ++ ["NOOUT"]) then (ProcExit 0, fs)
    else (ProcExit 0,
          <[cwd ++ ["codeenigma_runtime.so"] := File "ELF"]>
            (<[cwd ++ ["codeenigma_runtime.c"] := File "/* generated */"]>
               (<[cwd ++ ["build"] := Dir]> fs)))
  else if bool_decide (argv = ["poetry"; "build"; "-f"; "wheel"]) then
    (ProcExit 0,
     <[cwd ++ ["dist"; "codeenigma_runtime-1.0.0.whl"] := File "PK"]>
       (<[cwd ++ ["dist"] := Dir]> fs))
  else (ProcExit 0, fs).

(** [datetime.fromisoformat] on the strings the examples use; instants in
    seconds since the epoch. *)
Definition iso (s : string) : option datetime :=
  if String.eqb s "2020-01-01 00:00:00+00:00" then Some (Aware 1577836800)
  else if String.eqb s "2999-01-01 00:00:00+00:00" then Some (Aware 32472144000)
  else if String.eqb s "2020-01-01" then Some (Naive 1577836800)
  else None.

Definition templates (file_name : string) : string :=
  if String.eqb file_name "pyproject.toml.template"
  then "[tool.poetry] " +:+ README_LINE
  else "# " +:+ file_name.

Definition host : Host := {|
  platform_system := "Linux";
  EXTENSION_COMPILED_MODULE := ".so";
  codeenigma_version := "1.0.0";
  py_repr := λ s, "'" +:+ s +:+ "'";
  path_str := PyStr.join "/";
  sys_executable := "python3";
  template_source := templates;
  safe_substitute := λ text _, text;
  tomllib_loads := loads;
  locale_decodes := decodes;
  tomllib_loads_decodes := loads_decodes;
  toml_format := λ v, match v with TStr s => s | _ => EmptyString end;
  run_process := process;
  scan_order := λ l, l;
  scan_order_perm := λ l, Permutation_refl l;
  fromisoformat := iso;
  format_exception := λ _, "Traceback (most recent call last)";
  codeenigma_runtime_code := "def execute_secure_code(path): pass";
  expiry_code := λ _, "check_expiry()";
  orchestrator_run := λ _ output_dir build, build output_dir;
|}.

Definition world_of (fs : gmap path node) (env : gmap string string) : world :=
  World fs env [] [] 1700000000.

(** A builder with two extensions, on the Poetry bundler. *)
Definition builder : CythonRuntimeBuilder :=
  {| strategy := {| get_runtime_code := "core;" |};
     bundler := @PoetryBundler.new host;
     extensions := [ {| get_code := "first;" |}; {| get_code := "second;" |} ] |}.

(** An output directory, empty. *)
Definition w_out_dir : world := world_of {[ ["out"] := Dir ]} ∅.

(** The same, where every tool fails. *)
Definition w_failing : world :=
  world_of {[ ["out"] := Dir; ["out"; "FAIL"] := File "x" ]} ∅.

(** A project whose compile step produces nothing. *)
Definition w_no_output : world :=
  world_of {[ ["proj"] := Dir; ["proj"; "setup.py"] := File "# setup";
              ["proj"; "NOOUT"] := File "x"; ["proj"; "mod"] := Dir ]} ∅.

(** A [pyproject.toml] in Poetry format with a readme line, while an
    executable is being built. *)
Definition w_pyproject : world :=
  world_of {[ ["out"] := Dir;
              ["out"; "pyproject.toml"] := File ("[tool.poetry] " +:+ README_LINE) ]}
           {[ "CODEENIGMA_BUILDING_EXE" := "1" ]}.

(** The readme line with a second copy of itself inside. *)
Definition nested_readme : string :=
  "readme = " +:+ String DQ ("README" +:+ README_LINE +:+ ".md" +:+ String DQ EmptyString).

Definition w_nested : world :=
  world_of {[ ["pyproject.toml"] := File nested_readme ]} ∅.

(** A file with a Windows line end and no readme line. *)
Definition w_crlf : world :=
  world_of {[ ["pyproject.toml"]
              := File ("a" +:+ String PyStr.CR (String PyStr.LF "b")) ]} ∅.

(** A file that the codec does not decode. *)
Definition w_undecodable : world :=
  world_of {[ ["pyproject.toml"] := File (String "255"%char EmptyString) ]} ∅.

(** A source package [app] in the working directory. *)
Definition w_app : world :=
  world_of {[ ["app"] := Dir; ["app"; "main.py"] := File "print(1)" ]} ∅.


(** An obfuscated tree where the application keeps its own name, [app],
    the runtime package beside it. *)
Definition w_dist_app : world :=
  world_of {[ ["cedist"] := Dir;
              ["cedist"; "app"] := Dir;
              ["cedist"; "app"; "main.py"]
              := File "from codeenigma_runtime import execute_secure_code";
              ["cedist"; "codeenigma_runtime"] := Dir;
              ["cedist"; "codeenigma_runtime"; "codeenigma_runtime.so"] := File "ELF" ]}
           ∅.


(** The tree of [w_dist] with a stub that is not text. *)
Definition w_dist_binary : world :=
  world_of {[ ["cedist"] := Dir;
              ["cedist"; "proj"] := Dir;
              ["cedist"; "proj"; "main.py"] := File (String "255"%char EmptyString);
              ["cedist"; "codeenigma_runtime"] := Dir;
              ["cedist"; "codeenigma_runtime"; "codeenigma_runtime.so"] := File "ELF" ]}
           ∅.

(** A project with a [setup.py], a module directory and an output
    directory. *)
Definition w_project : world :=
  world_of {[ ["proj"] := Dir; ["proj"; "setup.py"] := File "# setup";
              ["proj"; "mod"] := Dir; ["out"] := Dir ]} ∅.

(** [w_project] after the compile step of the Poetry bundler, and after
    that of the running interpreter. *)
Definition w_project_compiled : world :=
  (@PoetryBundler.build_ext host ["proj"]
     (printed w_project ["[bold blue]Building extension using poetry[/bold blue]"])).2.

Definition w_project_python : world :=
  (@subprocess_run host (@python_build_ext host) ["proj"] w_project).2.

(** The world after step 1 of [build] in [w_failing], and after the
    compile step that then fails. *)
Definition w_failing_prepared : world :=
  (@build_prepare host builder ["out"] w_failing).2.

Definition w_failing_compiled : world :=
  (create_extension (bundler builder) ["out"] None w_failing_prepared).2.

(** The same two steps in [w_out_dir], where the compile step succeeds. *)
Definition w_prepared : world :=
  (@build_prepare host builder ["out"] w_out_dir).2.

Definition w_compiled : world :=
  (create_extension (bundler builder) ["out"] None w_prepared).2.

(** [w_no_output] after a compile step that leaves nothing. *)
Definition w_no_output_compiled : world :=
  (@PoetryBundler.build_ext host ["proj"]
     (printed w_no_output ["[bold blue]Building extension using poetry[/bold blue]"])).2.

End Sample.

(** * Properties *)

(** ** Python strings *)

Module PyStrFacts.
Import PyStr.

Lemma str_app_cons (a : ascii) (s t : string) : String a s +:+ t = String a (s +:+ t).
Proof. reflexivity. Qed.

Lemma str_app_empty_l (t : string) : EmptyString +:+ t = t.
Proof. reflexivity. Qed.

(** [simpl] leaves string concatenation alone; this also computes it. *)
Ltac ssimpl := simpl; rewrite ?str_app_cons, ?str_app_empty_l; simpl.

Lemma starts_with_app (p r : string) : starts_with p (p +:+ r) = true.
Proof. induction p as [|a p IH]; ssimpl; [done|]. by rewrite Ascii.eqb_refl. Qed.

Lemma starts_with_inv (p s : string) :
  starts_with p s = true → s = p +:+ drop (String.length p) s.
Proof.
  revert s. induction p as [|a p IH]; intros [|b s]; ssimpl; try done.
  destruct (Ascii.eqb a b) eqn:E; [|done].
  apply Ascii.eqb_eq in E as ->. intros Hs. f_equal. by apply IH.
Qed.

Lemma str_drop_app_length (p r : string) : drop (String.length p) (p +:+ r) = r.
Proof. induction p; ssimpl; done. Qed.

Lemma str_take_drop (n : nat) (s : string) : take n s +:+ drop n s = s.
Proof. revert s. induction n as [|n IH]; intros [|c s]; ssimpl; try done. by rewrite IH. Qed.

Lemma str_length_drop (n : nat) (s : string) :
  String.length (drop n s) = String.length s - n.
Proof. revert s. induction n as [|n IH]; intros [|c s]; ssimpl; try done; try lia. Qed.

Lemma str_drop_drop (n m : nat) (s : string) : drop n (drop m s) = drop (m + n) s.
Proof. revert s. induction m as [|m IH]; intros [|c s]; ssimpl; try done. by destruct n. Qed.

Lemma str_length_app (a b : string) :
  String.length (a +:+ b) = String.length a + String.length b.
Proof. induction a; ssimpl; [done|]. by rewrite IHa. Qed.

Lemma str_app_assoc (a b c : string) : (a +:+ b) +:+ c = a +:+ (b +:+ c).
Proof. induction a; ssimpl; [done|]. by rewrite IHa. Qed.

Lemma str_app_empty_r (a : string) : a +:+ EmptyString = a.
Proof. induction a; ssimpl; [done|]. by rewrite IHa. Qed.

(** The scan that still has [k] characters to pass over is the scan of
    what comes after them. *)
Lemma replace_from_drop (old new : string) (k : nat) (s : string) :
  replace_from old new k s = replace_from old new 0 (drop k s).
Proof.
  revert k. induction s as [|c s IH]; intros [|k]; simpl; try done.
Qed.

(** [str.replace], one step of the scan at a time. *)
Lemma replace_cons (old new : string) (c : ascii) (s : string) :
  old ≠ EmptyString →
  replace old new (String c s) =
    if starts_with old (String c s)
    then new +:+ replace old new (drop (String.length old) (String c s))
    else String c (replace old new s).
Proof.
  destruct old as [|a old]; [done|]. intros _.
  unfold replace. cbn [replace_from].
  destruct (starts_with _ _); [|done].
  f_equal. rewrite replace_from_drop. ssimpl. by rewrite Nat.sub_0_r.
Qed.

Lemma replace_empty (old new : string) :
  old ≠ EmptyString → replace old new EmptyString = EmptyString.
Proof. by destruct old. Qed.

(** Without an occurrence nothing changes. *)
Lemma replace_absent (old new s : string) :
  old ≠ EmptyString → find old s = None → replace old new s = s.
Proof.
  intros Hold. induction s as [|c s IH]; [by rewrite replace_empty|].
  rewrite replace_cons by done. cbn [find].
  destruct (starts_with old (String c s)); [done|].
  destruct (find old s); [done|]. intros _. by rewrite IH.
Qed.

(** The leftmost occurrence is the one replaced, and the scan goes on
    right after it. *)
Lemma replace_first (old new s : string) (n : nat) :
  old ≠ EmptyString → find old s = Some n →
  replace old new s =
    take n s +:+ new +:+ replace old new (drop (n + String.length old) s).
Proof.
  intros Hold. revert n. induction s as [|c s IH]; intros n.
  - destruct old; [done|]. ssimpl. done.
  - rewrite replace_cons by done. cbn [find].
    destruct (starts_with old (String c s)) eqn:E.
    + intros [= <-]. done.
    + destruct (find old s) as [m|]; [|done]. intros [= <-].
      ssimpl. f_equal. by apply IH.
Qed.

Lemma find_lt (old s : string) (n : nat) :
  find old s = Some n → (n + String.length old ≤ String.length s)%nat.
Proof.
  revert n. induction s as [|c s IH]; intros n; cbn [find].
  - destruct (starts_with old EmptyString) eqn:E; [|done].
    intros [= <-]. destruct old; [ssimpl; lia|done].
  - destruct (starts_with old (String c s)) eqn:E.
    + intros [= <-]. apply starts_with_inv in E.
      apply (f_equal String.length) in E. rewrite str_length_app in E. lia.
    + destruct (find old s) as [m|]; [|done]. intros [= <-].
      specialize (IH m eq_refl). ssimpl. lia.
Qed.

Lemma str_length_take (n : nat) (s : string) :
  (n ≤ String.length s)%nat → String.length (take n s) = n.
Proof.
  revert s. induction n as [|n IH]; intros [|c s]; ssimpl; try done; try lia.
  intros. rewrite IH; lia.
Qed.

(** Removing occurrences never lengthens the text, and shortens it when
    there is one. *)
Lemma length_remove (old s : string) :
  old ≠ EmptyString →
  (String.length (replace old EmptyString s) ≤ String.length s)%nat
  ∧ (contains old s = true →
     (String.length (replace old EmptyString s) < String.length s)%nat).
Proof.
  intros Hold.
  assert (0 < String.length old)%nat as Hpos by (destruct old; [done|simpl; lia]).
  remember (String.length s) as len eqn:Hlen.
  revert s Hlen. induction (lt_wf len) as [len _ IH]. intros s ->.
  unfold contains. destruct (find old s) as [n|] eqn:Hf.
  - pose proof (find_lt _ _ _ Hf) as Hn.
    rewrite (replace_first _ _ _ _ Hold Hf). rewrite str_app_empty_l.
    destruct (IH (String.length (drop (n + String.length old) s))
                ltac:(rewrite str_length_drop; lia) _ eq_refl) as [Hle _].
    rewrite str_length_drop in Hle.
    rewrite str_length_app, str_length_take by lia. split; [lia|]. intros _. lia.
  - rewrite replace_absent by done. split; [lia|done].
Qed.

(** Removing is idempotent exactly on the texts whose first pass leaves no
    occurrence behind. *)
Lemma remove_twice (old s : string) :
  old ≠ EmptyString →
  replace old EmptyString (replace old EmptyString s) = replace old EmptyString s
  ↔ contains old (replace old EmptyString s) = false.
Proof.
  intros Hold. split.
  - intros Heq. destruct (contains old _) eqn:E; [|done].
    apply (length_remove old _ Hold) in E. rewrite Heq in E. lia.
  - unfold contains. destruct (find old _) eqn:E; [done|]. intros _.
    by apply replace_absent.
Qed.

(** *** Newline translation *)

Lemma cr_free_app (a b : string) : cr_free (a +:+ b) = cr_free a && cr_free b.
Proof. induction a as [|c a IH]; ssimpl; [done|]. by rewrite IH, andb_assoc. Qed.

Lemma cr_free_decode_aux (s : string) :
  cr_free (decode_newlines s) = true
  ∧ ∀ c, cr_free (decode_newlines (String c s)) = true.
Proof.
  induction s as [|d s [IH1 IH2]].
  - split; [done|]. intros c. simpl. destruct (Ascii.eqb c CR) eqn:E; simpl; [done|].
    by rewrite E.
  - split; [apply IH2|]. intros c. cbn [decode_newlines].
    destruct (Ascii.eqb c CR) eqn:E.
    + cbn [cr_free]. destruct (Ascii.eqb d LF); [apply IH1|apply IH2].
    + cbn [cr_free]. rewrite E. apply IH2.
Qed.

(** What text mode hands to the program has no carriage return. *)
Lemma cr_free_decode (s : string) : cr_free (decode_newlines s) = true.
Proof. apply cr_free_decode_aux. Qed.

Lemma decode_cr_free (s : string) : cr_free s = true → decode_newlines s = s.
Proof.
  induction s as [|c s IH]; simpl; [done|].
  destruct (Ascii.eqb c CR); simpl; [done|]. intros Hs. by rewrite IH.
Qed.

Lemma encode_lf (s : string) : encode_newlines (String LF EmptyString) s = s.
Proof.
  induction s as [|c s IH]; simpl; [done|].
  destruct (Ascii.eqb c LF) eqn:E; rewrite IH; [|done].
  apply Ascii.eqb_eq in E as ->. done.
Qed.

Lemma decode_encode_crlf (s : string) :
  cr_free s = true →
  decode_newlines (encode_newlines (String CR (String LF EmptyString)) s) = s.
Proof.
  induction s as [|c s IH]; simpl; [done|].
  destruct (Ascii.eqb c CR) eqn:Ecr; simpl; [done|]. intros Hs.
  destruct (Ascii.eqb c LF) eqn:Elf.
  - apply Ascii.eqb_eq in Elf as ->. rewrite !str_app_cons, str_app_empty_l. simpl.
    by rewrite IH.
  - simpl. rewrite Ecr. by rewrite IH.
Qed.

Lemma cr_free_interleave (new s : string) :
  cr_free new = true → cr_free s = true → cr_free (interleave new s) = true.
Proof.
  intros Hn. induction s as [|c s IH]; simpl; [done|].
  intros [Hc Hs]%andb_true_iff. rewrite cr_free_app, Hn. simpl.
  by rewrite Hc, IH.
Qed.

Lemma cr_free_replace_from (old new : string) (k : nat) (s : string) :
  cr_free new = true → cr_free s = true →
  cr_free (replace_from old new k s) = true.
Proof.
  intros Hn. revert k. induction s as [|c s IH]; intros k; [done|].
  cbn [cr_free]. intros [Hc Hs]%andb_true_iff. cbn [replace_from].
  destruct k as [|k]; [|by apply IH].
  destruct (starts_with old (String c s)).
  - rewrite cr_free_app, Hn. by apply IH.
  - cbn [cr_free]. rewrite Hc. by apply IH.
Qed.

(** Replacing inside a text free of carriage returns, by one free of
    them, introduces none. *)
Lemma cr_free_replace (old new s : string) :
  cr_free new = true → cr_free s = true → cr_free (replace old new s) = true.
Proof.
  intros. destruct old; [by apply cr_free_interleave|by apply cr_free_replace_from].
Qed.

End PyStrFacts.

Import PyStrFacts.

(** ** Running computations *)

Lemma bind_ok {S A B} (m : SE S A) (k : A → SE S B) (s s' : S) (a : A) :
  m s = (Ok a, s') → (m ≫= k) s = k a s'.
Proof. unfold mbind, SE_bind, bind. by intros ->. Qed.

Lemma bind_raise {S A B} (m : SE S A) (k : A → SE S B) (s s' : S) (e : exn) :
  m s = (Raise e, s') → (m ≫= k) s = (Raise e, s').
Proof. unfold mbind, SE_bind, bind. by intros ->. Qed.

Arguments PyStr.replace : simpl never.
Arguments PyStr.encode_newlines : simpl never.
Arguments PyStr.decode_newlines : simpl never.
Arguments PyStr.contains : simpl never.
Arguments PyStr.ends_with : simpl never.
Arguments PyStr.starts_with : simpl never.
Arguments toml_getitem : simpl never.

(** Unfolds the monad down to matches on the outcomes of its steps. *)
Ltac run :=
  unfold mbind, SE_bind, bind, ret, raise, of_res, try_except, try_finally, suppress,
    liftW, log_call, get_fs, put_fs, print, environ_get, environ_update,
    datetime_now in *;
  simpl in *.

Section Facts.
Context `{!Host}.

(** *** [prepare_runtime_code] *)

Lemma fold_fragments (exts : list IExtension) (init : string) :
  fold_left (λ code extension, code +:+ get_code extension) exts init
  = init +:+ fragments exts.
Proof.
  revert init. induction exts as [|e exts IH]; intros init; simpl.
  - by rewrite str_app_empty_r.
  - by rewrite IH, str_app_assoc.
Qed.

Lemma linesep_posix :
  platform_system ≠ "Windows" → linesep = String PyStr.LF EmptyString.
Proof.
  intros Hp. unfold linesep. destruct (String.eqb _ _) eqn:E; [|done].
  by apply String.eqb_eq in E.
Qed.

Lemma write_text_ok (p : path) (text : string) (w : world) :
  stat (w_fs w) p ≠ Some Dir →
  (stat (w_fs w) p = None → stat (w_fs w) (parent p) = Some Dir) →
  write_text p text w
  = (Ok (), with_fs w (<[p := File (PyStr.encode_newlines linesep text)]> (w_fs w))).
Proof.
  intros Hp Hd. unfold write_text, write_bytes. run.
  destruct (stat (w_fs w) p) as [[b|]|]; [done|done|].
  by rewrite Hd.
Qed.

Lemma prepare_runtime_code_eq (self : CythonRuntimeBuilder) (p : path) :
  prepare_runtime_code self p = write_text p (runtime_text self).
Proof. unfold prepare_runtime_code, runtime_code, runtime_text. by rewrite fold_fragments. Qed.

(** C1. [prepare_runtime_code] writes one text: the strategy's runtime
    routine followed by the fragment of each extension, in the order of the
    sequence.  Where the path can be written, the file holds exactly that
    text (with the line ends of the platform, which on a POSIX system are the
    text's own) and nothing else in the world changes. *)
Theorem prepare_runtime_code_core_then_fragments
    (self : CythonRuntimeBuilder) (p : path) (w : world) :
  prepare_runtime_code self p = write_text p (runtime_text self)
  ∧ (stat (w_fs w) p ≠ Some Dir →
     stat (w_fs w) (parent p) = Some Dir →
     prepare_runtime_code self p w
     = (Ok (), with_fs w (<[p := File (PyStr.encode_newlines linesep (runtime_text self))]>
                            (w_fs w)))
     ∧ (platform_system ≠ "Windows" →
        PyStr.encode_newlines linesep (runtime_text self) = runtime_text self)).
Proof.
  pose proof (prepare_runtime_code_eq self p) as Heq.
  split; [done|]. intros Hp Hd. split.
  - rewrite Heq. by apply write_text_ok.
  - intros Hposix. rewrite linesep_posix by done. apply encode_lf.
Qed.

End Facts.

Section Facts3.
Context `{!Host}.

(** *** [remove_readme_before_build] *)

Lemma README_LINE_nonempty : README_LINE ≠ EmptyString.
Proof. done. Qed.

Lemma decode_encode_linesep (text : string) :
  PyStr.cr_free text = true →
  PyStr.decode_newlines (PyStr.encode_newlines linesep text) = text.
Proof.
  intros Hfree. unfold linesep. destruct (String.eqb _ _).
  - by apply decode_encode_crlf.
  - rewrite encode_lf. by apply decode_cr_free.
Qed.

Lemma with_fs_same (w : world) : with_fs w (w_fs w) = w.
Proof. by destruct w. Qed.

Lemma stat_file (fs : gmap path node) (p : path) (bytes : string) :
  stat fs p = Some (File bytes) → fs !! p = Some (File bytes) ∧ p ≠ [].
Proof. by destruct p. Qed.

Lemma stat_insert_eq (fs : gmap path node) (p : path) (n : node) :
  p ≠ [] → stat (<[p := n]> fs) p = Some n.
Proof. destruct p; [done|]. intros _. simpl. by rewrite lookup_insert_eq. Qed.

Lemma remove_readme_run (p : path) (w : world) (bytes : string) :
  stat (w_fs w) p = Some (File bytes) →
  locale_decodes bytes = true →
  PoetryBundler.remove_readme_before_build p w
  = (Ok (), with_fs w (<[p := File (PyStr.encode_newlines linesep (once_removed bytes))]>
                         (w_fs w))).
Proof.
  intros Hp Hdec. unfold PoetryBundler.remove_readme_before_build, read_text, read_bytes,
    write_text, write_bytes. run. rewrite Hp. simpl. rewrite Hdec. simpl. by rewrite Hp.
Qed.

Lemma remove_readme_undecodable (p : path) (w : world) (bytes : string) :
  stat (w_fs w) p = Some (File bytes) →
  locale_decodes bytes = false →
  PoetryBundler.remove_readme_before_build p w = (Raise UnicodeDecodeError, w).
Proof.
  intros Hp Hdec. unfold PoetryBundler.remove_readme_before_build, read_text, read_bytes.
  run. rewrite Hp. simpl. by rewrite Hdec.
Qed.

Lemma uv_remove_readme_same (p : path) (w : world) :
  UVBundler.remove_readme_before_build p w = PoetryBundler.remove_readme_before_build p w.
Proof.
  unfold UVBundler.remove_readme_before_build, PoetryBundler.remove_readme_before_build,
    read_text, read_bytes, write_text, write_bytes. run.
  destruct (stat (w_fs w) p) as [[bytes|]|] eqn:E; simpl; rewrite ?E; simpl; [|done..].
  destruct (locale_decodes bytes) eqn:D; simpl; rewrite ?E; simpl; rewrite ?D; simpl;
    rewrite ?E; done.
Qed.

(** C10 (amended). On a regular file whose bytes the codec of the locale
    decodes, [remove_readme_before_build] (the same function in both
    bundlers) leaves the text with every occurrence of the readme line cut
    out; on bytes the codec cannot decode it raises [UnicodeDecodeError] and
    writes nothing.  A text without the line is written back as it was read,
    so a file that has neither the line nor a carriage return is unchanged on
    a POSIX system.  A second application, which reads what the first one
    wrote, changes nothing exactly when the first one left no occurrence
    behind. *)
Theorem remove_readme_before_build_twice (p : path) (w : world) (bytes : string) :
  stat (w_fs w) p = Some (File bytes) →
  (locale_decodes bytes = false →
   PoetryBundler.remove_readme_before_build p w = (Raise UnicodeDecodeError, w))
  ∧ UVBundler.remove_readme_before_build p w = PoetryBundler.remove_readme_before_build p w
  ∧ (locale_decodes bytes = true →
     PoetryBundler.remove_readme_before_build p w
     = (Ok (), with_fs w (<[p := File (PyStr.encode_newlines linesep (once_removed bytes))]>
                            (w_fs w)))
     ∧ (PyStr.contains README_LINE (PyStr.decode_newlines bytes) = false →
        once_removed bytes = PyStr.decode_newlines bytes
        ∧ (PyStr.cr_free bytes = true → platform_system ≠ "Windows" →
           PoetryBundler.remove_readme_before_build p w = (Ok (), w)))
     ∧ (locale_decodes (PyStr.encode_newlines linesep (once_removed bytes)) = true →
        (PoetryBundler.remove_readme_before_build p
           (PoetryBundler.remove_readme_before_build p w).2
         = PoetryBundler.remove_readme_before_build p w
         ↔ PyStr.contains README_LINE (once_removed bytes) = false))).
Proof.
  intros Hp. split; [by apply remove_readme_undecodable|].
  split; [apply uv_remove_readme_same|]. intros Hdec.
  pose proof (remove_readme_run p w bytes Hp Hdec) as Hrun.
  destruct (stat_file _ _ _ Hp) as [Hlook Hne].
  split; [done|]. split.
  - unfold PyStr.contains. destruct (PyStr.find _ _) eqn:Hfind; [done|]. intros _.
    assert (once_removed bytes = PyStr.decode_newlines bytes) as Hsame.
    { unfold once_removed. by apply replace_absent. }
    split; [done|]. intros Hfree Hposix. rewrite Hrun, Hsame.
    rewrite linesep_posix, encode_lf, decode_cr_free by done.
    by rewrite insert_id, with_fs_same.
  - intros Hdec2. rewrite Hrun. cbn [snd].
    assert (PyStr.cr_free (once_removed bytes) = true) as Hfree.
    { unfold once_removed. apply cr_free_replace; [done|apply cr_free_decode]. }
    rewrite (remove_readme_run p _ (PyStr.encode_newlines linesep (once_removed bytes)))
      by (by apply stat_insert_eq || done).
    assert (once_removed (PyStr.encode_newlines linesep (once_removed bytes))
            = PyStr.replace README_LINE EmptyString (once_removed bytes)) as ->.
    { unfold once_removed at 1. by rewrite decode_encode_linesep. }
    unfold once_removed in *.
    rewrite <- (remove_twice README_LINE _ README_LINE_nonempty).
    unfold with_fs. cbn [w_fs w_env w_out w_procs w_now].
    rewrite insert_insert_eq. split.
    + intros [= Heq]. apply (f_equal (λ m, m !! p)) in Heq.
      rewrite !lookup_insert_eq in Heq. injection Heq as Heq.
      apply (f_equal PyStr.decode_newlines) in Heq.
      rewrite !decode_encode_linesep in Heq; [done|done|].
      by apply cr_free_replace.
    + by intros ->.
Qed.

(** *** [obfuscate]: the checks before any work *)

(** C6. A module path that does not exist, or is not a directory, makes
    [obfuscate] print an error and exit with code 1: the file system is as
    it was and no call was made, so the Orchestrator was never constructed. *)
Theorem obfuscate_rejects_bad_module_path
    (module_path : path) (expiration_date : option string) (output_dir : path)
    (verbose : bool) (s : state) :
  exists_ (w_fs (st_world s)) module_path = false
  ∨ is_dir (w_fs (st_world s)) module_path = false →
  ∃ banner error,
    obfuscate module_path expiration_date output_dir verbose s
    = (Raise (TyperExit 1), State (printed (st_world s) [banner; error]) (st_calls s)).
Proof.
  intros Hbad. unfold obfuscate, display_banner, path_exists, path_is_dir, printed. run.
  destruct (exists_ _ _) eqn:Hex; simpl;
    [|by eexists _, _; rewrite <- (assoc_L (++))].
  destruct Hbad as [?|Hd]; [done|]. rewrite Hd. simpl.
  by eexists _, _; rewrite <- (assoc_L (++)).
Qed.

(** C3 (amended). A non-empty expiration string that does not parse, or
    that parses to a [datetime] with an offset lying before the current
    instant, makes [obfuscate] print an error and exit with code 1: the
    file system is as it was and no call was made. *)
Theorem obfuscate_rejects_bad_expiration
    (module_path : path) (e : string) (output_dir : path) (verbose : bool) (s : state) :
  e ≠ EmptyString →
  fromisoformat e = None
  ∨ (∃ t, fromisoformat e = Some (Aware t) ∧ (t < w_now (st_world s))%Z) →
  ∃ banner error,
    obfuscate module_path (Some e) output_dir verbose s
    = (Raise (TyperExit 1), State (printed (st_world s) [banner; error]) (st_calls s)).
Proof.
  intros Hne Hbad. unfold obfuscate, display_banner, path_exists, path_is_dir, printed. run.
  destruct (exists_ _ _) eqn:Hex; simpl;
    [|by eexists _, _; rewrite <- (assoc_L (++))].
  destruct (is_dir _ _) eqn:Hd; simpl;
    [|by eexists _, _; rewrite <- (assoc_L (++))].
  destruct e as [|c e]; [done|].
  destruct Hbad as [->|(t & -> & Ht)]; simpl.
  - by eexists _, _; rewrite <- (assoc_L (++)).
  - unfold datetime_lt_aware. run.
    apply Z.ltb_lt in Ht. rewrite Ht. simpl.
    by eexists _, _; rewrite <- (assoc_L (++)).
Qed.

End Facts3.

Section Facts4.
Context `{!Host}.

(** *** [PoetryBundler.create_wheel] while an executable is being built *)

Lemma eqb_neq (a b : string) : a ≠ b → String.eqb a b = false.
Proof. intros. by apply String.eqb_neq. Qed.


End Facts4.

(** ** Invariants along a computation *)

Section Preserved.
Context {S : Type} (I : S → Prop).

Lemma preserved_ret {A} (a : A) : preserved I (ret a).
Proof. by intros s r s' [= <- <-]. Qed.

Lemma preserved_raise {A} (e : exn) : preserved I (raise (A := A) e).
Proof. by intros s r s' [= <- <-]. Qed.

Lemma preserved_of_res {A} (x : res A) : preserved I (of_res x).
Proof. by intros s r s' [= <- <-]. Qed.

Lemma preserved_bind {A B} (m : SE S A) (k : A → SE S B) :
  preserved I m → (∀ a, preserved I (k a)) → preserved I (m ≫= k).
Proof.
  intros Hm Hk s r s'. unfold mbind, SE_bind, bind.
  destruct (m s) as [[a|e] s1] eqn:E; intros Hr Hs.
  - eapply Hk; [done|]. by eapply Hm.
  - injection Hr as <- <-. by eapply Hm.
Qed.

Lemma preserved_try_except {A} (m : SE S A) (h : exn → option (SE S A)) :
  preserved I m → (∀ e k, h e = Some k → preserved I k) → preserved I (try_except m h).
Proof.
  intros Hm Hh s r s'. unfold try_except.
  destruct (m s) as [[a|e] s1] eqn:E; intros Hr Hs.
  - injection Hr as <- <-. by eapply Hm.
  - destruct (h e) as [k|] eqn:Ek.
    + eapply Hh; [done..|]. by eapply Hm.
    + injection Hr as <- <-. by eapply Hm.
Qed.

Lemma preserved_suppress (m : SE S unit) : preserved I m → preserved I (suppress m).
Proof.
  intros Hm. apply preserved_try_except; [done|].
  intros e k [= <-]. apply preserved_ret.
Qed.

Lemma preserved_for_each {A} (xs : list A) (body : A → SE S unit) :
  (∀ x, x ∈ xs → preserved I (body x)) → preserved I (for_each xs body).
Proof.
  induction xs as [|x xs IH]; intros Hb; simpl; [apply preserved_ret|].
  apply preserved_bind; [apply Hb; left|]. intros _. apply IH.
  intros y Hy. apply Hb. by right.
Qed.

End Preserved.

Lemma preserved_liftW {A} (I : world → Prop) (m : W A) :
  preserved I m → preserved (λ s, I (st_world s)) (liftW m).
Proof.
  intros Hm s r s'. unfold liftW. destruct (m (st_world s)) as [r1 w1] eqn:E.
  intros [= <- <-]. simpl. by eapply Hm.
Qed.

Lemma preserved_log_call (I : world → Prop) (c : call) :
  preserved (λ s, I (st_world s)) (log_call c).
Proof. by intros s r s' [= <- <-]. Qed.

(** ** The file system: what each operation leaves behind *)

Lemma stat_snoc (fs : gmap path node) (p : path) (x : string) :
  stat fs (p ++ [x]) = fs !! (p ++ [x]).
Proof. by destruct p. Qed.

Lemma stat_nonempty (fs : gmap path node) (p : path) :
  p ≠ [] → stat fs p = fs !! p.
Proof. by destruct p. Qed.

Lemma joinpath_cases (p : path) (n : string) :
  joinpath p n = p ∨ joinpath p n = p ++ [n].
Proof. destruct n; simpl; auto. Qed.

Lemma print_run (msg : string) (w : world) : print msg w = (Ok (), printed w [msg]).
Proof. done. Qed.

Lemma write_bytes_inv (p : path) (bytes : string) (w : world) (r : res unit) (w' : world) :
  write_bytes p bytes w = (r, w') →
  (r = Ok () ∧ w' = with_fs w (<[p := File bytes]> (w_fs w)))
  ∨ (∃ e, r = Raise e ∧ w' = w).
Proof.
  unfold write_bytes. run.
  destruct (stat (w_fs w) p) as [[?|]|]; simpl.
  - intros [= <- <-]. by left.
  - intros [= <- <-]. right. eauto.
  - destruct (stat (w_fs w) (parent p)) as [[?|]|]; simpl; intros [= <- <-];
      [right|left|right]; eauto.
Qed.

Lemma mkdir_exist_ok_inv (p : path) (w : world) (r : res unit) (w' : world) :
  mkdir_exist_ok p w = (r, w') →
  (r = Ok () ∧ is_dir (w_fs w') p = true
   ∧ (w' = w ∨ (stat (w_fs w) p = None ∧ w' = with_fs w (<[p := Dir]> (w_fs w)))))
  ∨ (∃ e, r = Raise e ∧ w' = w).
Proof.
  unfold mkdir_exist_ok, is_dir. run.
  destruct (stat (w_fs w) p) as [[?|]|] eqn:Hp; simpl.
  - intros [= <- <-]. right. eauto.
  - intros [= <- <-]. left. rewrite Hp. auto.
  - destruct (stat (w_fs w) (parent p)) as [[?|]|]; simpl; intros [= <- <-];
      [right; eauto| |right; eauto].
    left. split; [done|]. destruct p as [|x p]; [done|]. simpl.
    rewrite lookup_insert_eq. auto.
Qed.

Lemma absent_print (k : path) (msg : string) : preserved (absent k) (print msg).
Proof. by intros w r w' [= <- <-]. Qed.

Lemma absent_write_bytes (k p : path) (bytes : string) :
  k ≠ p → preserved (absent k) (write_bytes p bytes).
Proof.
  intros Hk w r w' [[_ ->]|(e & _ & ->)]%write_bytes_inv; [|done].
  unfold absent. simpl. by rewrite lookup_insert_ne.
Qed.

Section FsFacts.
Context `{!Host}.

Lemma absent_write_text (k p : path) (text : string) :
  k ≠ p → preserved (absent k) (write_text p text).
Proof. apply absent_write_bytes. Qed.

Lemma write_text_inv (p : path) (text : string) (w : world) (r : res unit) (w' : world) :
  write_text p text w = (r, w') →
  (r = Ok () ∧ w' = with_fs w (<[p := File (PyStr.encode_newlines linesep text)]> (w_fs w)))
  ∨ (∃ e, r = Raise e ∧ w' = w).
Proof. apply write_bytes_inv. Qed.

End FsFacts.

Lemma absent_mkdir (k p : path) : k ≠ p → preserved (absent k) (mkdir_exist_ok p).
Proof.
  intros Hk w r w' [(_ & _ & [->|[_ ->]])|(e & _ & ->)]%mkdir_exist_ok_inv; try done.
  unfold absent. simpl. by rewrite lookup_insert_ne.
Qed.

(** *** Renaming a tree *)

Lemma under_spec (p q : path) : under p q = true ↔ p `prefix_of` q.
Proof. unfold under. apply bool_decide_eq_true. Qed.

Lemma rename_tree_lookup (src dst : path) (fs : gmap path node) (k : path) :
  rename_tree src dst fs !! k = renamed src dst fs k.
Proof.
  unfold rename_tree. rewrite map_lookup_imap, lookup_gset_to_gmap.
  destruct (renamed src dst fs k) as [n|] eqn:Hr.
  - rewrite option_guard_True; [by simpl|].
    unfold renamed in Hr. apply elem_of_union.
    destruct (under dst k) eqn:Hd.
    + right. apply elem_of_map. exists (src ++ drop (length dst) k). split.
      * rewrite drop_app_length. apply under_spec in Hd as [rest ->].
        by rewrite drop_app_length.
      * apply elem_of_dom. eauto.
    + left. destruct (under src k); [done|]. apply elem_of_dom. eauto.
  - by destruct (guard _).
Qed.

Lemma make_ancestors_lookup (fs : gmap path node) (p k : path) :
  (∀ n, k ≠ take n p) → make_ancestors fs p !! k = fs !! k.
Proof.
  intros Hk. unfold make_ancestors.
  induction (seq 1 (length p - 1)) as [|n ns IH]; simpl; [done|].
  destruct (stat _ (take n p)); [done|].
  rewrite lookup_insert_ne; [done|]. intros Heq. by apply (Hk n).
Qed.

Lemma absent_move_onto (k src real_dst : path) :
  ¬ k `prefix_of` real_dst → ¬ real_dst `prefix_of` k →
  preserved (absent k) (move_onto src real_dst).
Proof.
  intros Hk1 Hk2 w r w'. unfold move_onto, absent. run.
  assert (k ≠ real_dst) as Hne by (by intros ->).
  assert (under real_dst k = false) as Hnu.
  { destruct (under real_dst k) eqn:E; [|done]. by apply under_spec in E. }
  assert (∀ fs, fs !! k = None → rename_tree src real_dst fs !! k = None) as Hren.
  { intros fs Hfs. rewrite rename_tree_lookup. unfold renamed. rewrite Hnu.
    by destruct (under src k). }
  destruct (stat (w_fs w) src) as [[bytes|]|]; simpl.
  - destruct (stat (w_fs w) (parent real_dst)) as [[?|]|]; simpl;
      intros [= <- <-]; try done.
    intros Habs. simpl. rewrite lookup_insert_ne by done.
    apply lookup_delete_None. auto.
  - destruct (under src real_dst); [by intros [= <- <-]|].
    destruct (exists_ (w_fs w) real_dst); [by intros [= <- <-]|].
    destruct (is_dir (w_fs w) (parent real_dst)).
    { intros [= <- <-] Habs. simpl. by apply Hren. }
    destruct (ancestors_clear (w_fs w) real_dst); intros [= <- <-]; [|done].
    intros Habs. simpl. apply Hren. rewrite make_ancestors_lookup; [done|].
    intros n ->. apply Hk1. apply prefix_take.
  - by intros [= <- <-].
Qed.

Lemma absent_move (k src dst : path) :
  (∀ x, ¬ k `prefix_of` dst ++ x) → ¬ dst `prefix_of` k →
  preserved (absent k) (move src dst).
Proof.
  intros Hk1 Hk2 w r w'. unfold move. run.
  destruct (is_dir (w_fs w) dst).
  - destruct (bool_decide (src = dst)); [by intros [= <- <-]|].
    destruct (exists_ (w_fs w) (joinpath dst (name src))); [by intros [= <- <-]|].
    apply absent_move_onto.
    + destruct (joinpath_cases dst (name src)) as [-> | ->].
      * specialize (Hk1 []). by rewrite app_nil_r in Hk1.
      * apply Hk1.
    + intros Hp. apply Hk2. etrans; [|done].
      destruct (joinpath_cases dst (name src)) as [-> | ->]; [done|].
      by apply prefix_app_r.
  - apply absent_move_onto; [|done]. specialize (Hk1 []). by rewrite app_nil_r in Hk1.
Qed.

(** ** [CythonRuntimeBuilder.build] *)

Lemma liftW_eq {A} (m : W A) (s : state) (r : res A) (w' : world) :
  m (st_world s) = (r, w') → liftW m s = (r, State w' (st_calls s)).
Proof. unfold liftW. by intros ->. Qed.

Lemma unlink_run (p : path) (x : string) (w : world) :
  is_dir (w_fs w) (p ++ [x]) = false →
  unlink_missing_ok (p ++ [x]) w = (Ok (), with_fs w (delete (p ++ [x]) (w_fs w))).
Proof.
  unfold unlink_missing_ok, is_dir. run. rewrite stat_snoc.
  destruct (w_fs w !! (p ++ [x])) as [[?|]|] eqn:E; simpl; [done|done|].
  intros _. by rewrite delete_id, with_fs_same.
Qed.

Lemma suppress_rmdir (p : path) (w : world) :
  ∃ w', suppress (rmdir p) w = (Ok (), w')
        ∧ (w' = w ∨ (is_dir (w_fs w) p = true ∧ w' = with_fs w (delete p (w_fs w)))).
Proof.
  unfold suppress, rmdir, is_dir. run.
  destruct (stat (w_fs w) p) as [[?|]|]; simpl; [by eauto| |by eauto].
  destruct p as [|x p]; [by eauto|].
  destruct (children _ _); simpl; by eauto.
Qed.

Lemma elem_of_temp_files (P : string → Prop) :
  P "setup.py" → P "codeenigma_runtime.pyx" → P "codeenigma_runtime.c" →
  ∀ f, f ∈ temp_files → P f.
Proof.
  intros H1 H2 H3 f Hf. unfold temp_files in Hf.
  repeat (apply elem_of_cons in Hf as [->|Hf]; [done|]).
  by apply elem_of_nil in Hf.
Qed.

Section BuildFacts.
Context `{!Host}.

Lemma build_prepare_inv (self : CythonRuntimeBuilder) (out : path) (w w1 : world) :
  build_prepare self out w = (Ok (), w1) →
  w_fs w1 !! (out ++ ["setup.py"]) = Some (File (PyStr.encode_newlines linesep setup_code))
  ∧ w_fs w1 !! (out ++ ["codeenigma_runtime.pyx"])
    = Some (File (PyStr.encode_newlines linesep (runtime_text self)))
  ∧ w_env w1 = w_env w ∧ w_procs w1 = w_procs w.
Proof.
  unfold build_prepare, create_cython_setup.
  rewrite prepare_runtime_code_eq.
  unfold mbind, SE_bind, bind. rewrite print_run.
  destruct (mkdir_exist_ok out _) as [r0 w0] eqn:Hmk.
  apply mkdir_exist_ok_inv in Hmk as [(-> & _ & Hw0)|(e & -> & _)]; [|done].
  destruct (write_text _ (runtime_text self) w0) as [r2 w2] eqn:Hpyx.
  apply write_text_inv in Hpyx as [[-> ->]|(e & -> & _)]; [|done].
  rewrite print_run.
  destruct (write_text _ setup_code _) as [r3 w3] eqn:Hsetup.
  apply write_text_inv in Hsetup as [[-> ->]|(e & -> & _)]; [|done].
  intros [= <-]. simpl. rewrite lookup_insert_eq.
  rewrite lookup_insert_ne by (intros ?%(inj (app out)); done).
  rewrite lookup_insert_eq.
  by destruct Hw0 as [->|[_ ->]].
Qed.

(** C2. When [create_extension] raises, [build] raises the same exception
    and does nothing more: the world is the one the bundler left, the only
    call recorded is the one to [create_extension] (so [create_wheel] was not
    called and no cleanup ran).  [setup.py] and the [.pyx] source had been
    written before the call, and are still there wherever the bundler itself
    left them alone. *)
Theorem build_stops_at_compile_failure
    (self : CythonRuntimeBuilder) (out : path) (s : state) (w1 w2 : world) (e : exn) :
  build_prepare self out (st_world s) = (Ok (), w1) →
  create_extension (bundler self) out None w1 = (Raise e, w2) →
  build self out s = (Raise e, State w2 (st_calls s ++ [CallCreateExtension out]))
  ∧ (∀ m o, CallCreateWheel m o ∈ st_calls s ++ [CallCreateExtension out] →
            CallCreateWheel m o ∈ st_calls s)
  ∧ w_fs w1 !! (out ++ ["setup.py"]) = Some (File (PyStr.encode_newlines linesep setup_code))
  ∧ w_fs w1 !! (out ++ ["codeenigma_runtime.pyx"])
    = Some (File (PyStr.encode_newlines linesep (runtime_text self)))
  ∧ (∀ p, w_fs w2 !! p = w_fs w1 !! p →
          w_fs (st_world (build self out s).2) !! p = w_fs w1 !! p).
Proof.
  intros Hprep Hext.
  assert (build self out s
          = (Raise e, State w2 (st_calls s ++ [CallCreateExtension out]))) as Hrun.
  { unfold build.
    rewrite (bind_ok _ _ _ _ _ (liftW_eq _ _ _ _ Hprep)).
    erewrite bind_ok by reflexivity.
    by rewrite (bind_raise _ _ _ _ _ (liftW_eq _ (State _ _) _ _ Hext)). }
  destruct (build_prepare_inv _ _ _ _ Hprep) as (Hsetup & Hpyx & _).
  split; [done|]. split; [|split; [done|split; [done|]]].
  - intros m o [?|Hin]%elem_of_app; [done|].
    apply list_elem_of_singleton in Hin. done.
  - intros p Hp. by rewrite Hrun.
Qed.

Lemma build_cleanup_run (out : path) (w : world) :
  (∀ f, f ∈ temp_files → is_dir (w_fs w) (out ++ [f]) = false) →
  ∃ w', build_cleanup out w = (Ok (), w')
    ∧ w' = with_fs w (w_fs w')
    ∧ (∀ f, f ∈ temp_files → absent (out ++ [f]) w')
    ∧ (∀ k, (∀ f, f ∈ temp_files → k ≠ out ++ [f]) → k ≠ out ++ ["build"] →
            w_fs w' !! k = w_fs w !! k)
    ∧ (∀ k bytes, (∀ f, f ∈ temp_files → k ≠ out ++ [f]) →
                  w_fs w !! k = Some (File bytes) → w_fs w' !! k = Some (File bytes)).
Proof.
  intros Hfiles.
  pose proof (Hfiles "setup.py" ltac:(set_solver)) as H1.
  pose proof (Hfiles "codeenigma_runtime.pyx" ltac:(set_solver)) as H2.
  pose proof (Hfiles "codeenigma_runtime.c" ltac:(set_solver)) as H3.
  set (fs3 := delete (out ++ ["codeenigma_runtime.c"])
                (delete (out ++ ["codeenigma_runtime.pyx"])
                   (delete (out ++ ["setup.py"]) (w_fs w)))).
  assert (for_each temp_files (λ temp_file, unlink_missing_ok (joinpath out temp_file)) w
          = (Ok (), with_fs w fs3)) as Hloop.
  { unfold temp_files. cbn [for_each joinpath].
    rewrite (bind_ok _ _ _ _ _ (unlink_run _ _ _ H1)).
    erewrite bind_ok; cycle 1.
    { apply unlink_run. unfold is_dir in *. rewrite stat_snoc in *. simpl.
      rewrite lookup_delete_ne by (intros ?%(inj (app out)); done). done. }
    erewrite bind_ok; cycle 1.
    { apply unlink_run. unfold is_dir in *. rewrite stat_snoc in *. simpl.
      rewrite !lookup_delete_ne by (intros ?%(inj (app out)); done). done. }
    done. }
  assert (∀ f, f ∈ temp_files → fs3 !! (out ++ [f]) = None) as Habs.
  { apply elem_of_temp_files; unfold fs3.
    - rewrite !lookup_delete_ne by (intros ?%(inj (app out)); done).
      apply lookup_delete_eq.
    - rewrite lookup_delete_ne by (intros ?%(inj (app out)); done).
      apply lookup_delete_eq.
    - apply lookup_delete_eq. }
  assert (∀ k, (∀ f, f ∈ temp_files → k ≠ out ++ [f]) → fs3 !! k = w_fs w !! k) as Hframe.
  { intros k Hk. unfold fs3.
    rewrite !lookup_delete_ne; [done|symmetry; apply Hk; set_solver..]. }
  destruct (suppress_rmdir (out ++ ["build"]) (with_fs w fs3)) as (w' & Hrm & Hw').
  exists w'. split.
  { unfold build_cleanup. rewrite (bind_ok _ _ _ _ _ Hloop). exact Hrm. }
  destruct Hw' as [->|[Hd ->]]; simpl.
  - split; [done|]. split; [done|]. split; [by intros; apply Hframe|].
    intros k bytes Hk Hf. by rewrite Hframe.
  - split; [done|]. split.
    { intros f Hf. unfold absent. simpl. apply lookup_delete_None. right. by apply Habs. }
    split.
    { intros k Hk Hb. rewrite lookup_delete_ne by done. by apply Hframe. }
    intros k bytes Hk Hf. rewrite lookup_delete_ne; [by rewrite Hframe|].
    intros <-. unfold is_dir in Hd. rewrite stat_snoc in Hd. simpl in Hd.
    rewrite Hframe, Hf in Hd; [done|].
    apply (elem_of_temp_files (λ f, out ++ ["build"] ≠ out ++ [f]));
      intros ?%(inj (app out)); done.
Qed.

Lemma absent_temp_build_pack (self : CythonRuntimeBuilder) (out module_file : path)
    (f : string) :
  f ∈ temp_files →
  preserved (absent (out ++ [f]))
    (create_wheel (bundler self) (out ++ ["codeenigma_runtime"]) (Some out)) →
  preserved (λ s, absent (out ++ [f]) (st_world s)) (build_pack self out module_file).
Proof.
  intros Hf Hwheel. unfold build_pack.
  assert (f ≠ "codeenigma_runtime" ∧ f ≠ "pyproject.toml") as [Hf1 Hf2].
  { clear Hwheel. revert f Hf. apply elem_of_temp_files; done. }
  assert (∀ rest, out ++ [f] ≠ out ++ "codeenigma_runtime" :: rest) as Hne.
  { intros rest ?%(inj (app out)). congruence. }
  assert (∀ x, ¬ out ++ [f] `prefix_of`
                 joinpath (out ++ ["codeenigma_runtime"]) (name module_file) ++ x) as Hp1.
  { intros x [y Hp].
    destruct (joinpath_cases (out ++ ["codeenigma_runtime"]) (name module_file))
      as [Hj|Hj]; rewrite Hj in Hp; rewrite <- !(assoc_L (++)) in Hp;
      apply (inj (app out)) in Hp; simpl in Hp; congruence. }
  assert (¬ joinpath (out ++ ["codeenigma_runtime"]) (name module_file)
            `prefix_of` out ++ [f]) as Hp2.
  { intros [y Hp].
    destruct (joinpath_cases (out ++ ["codeenigma_runtime"]) (name module_file))
      as [Hj|Hj]; rewrite Hj in Hp; rewrite <- !(assoc_L (++)) in Hp;
      apply (inj (app out)) in Hp; simpl in Hp; congruence. }
  cbn [joinpath].
  apply preserved_bind; [apply (preserved_liftW (absent _)), absent_print|intros _].
  apply preserved_bind;
    [apply (preserved_liftW (absent _)), absent_mkdir, (Hne [])|intros _].
  apply preserved_bind;
    [by apply (preserved_liftW (absent _)), absent_move|intros _].
  apply preserved_bind; [apply (preserved_liftW (absent _))|intros _].
  { unfold create_init_file. cbn [joinpath].
    apply preserved_bind; [apply absent_print|intros _].
    apply preserved_bind; [|intros _].
    - apply absent_write_text. rewrite <- (assoc_L (++)). apply Hne.
    - apply absent_write_bytes. rewrite <- (assoc_L (++)). apply Hne. }
  apply preserved_bind; [apply (preserved_liftW (absent _))|intros _].
  { unfold create_pyproject_toml. cbn [joinpath].
    apply preserved_bind; [apply absent_print|intros _].
    apply absent_write_text. intros ?%(inj (app out)). congruence. }
  apply preserved_bind; [apply (preserved_log_call (absent _))|intros _].
  apply preserved_bind; [by apply (preserved_liftW (absent _))|intros _].
  apply (preserved_liftW (absent _)), absent_print.
Qed.

(** C7. After a successful [create_extension], the cleanup deletes
    [setup.py], the [.pyx] and the [.c] file and nothing else that is a file
    (only an empty [build] directory may go with them); packaging starts
    from that state and does not bring them back, so with a bundler whose
    [create_wheel] does not create them they are absent when [build] ends,
    whether packaging succeeded or failed. *)
Theorem build_cleans_up_before_packaging
    (self : CythonRuntimeBuilder) (out : path) (s : state) (w1 w2 : world)
    (module_file : path) :
  build_prepare self out (st_world s) = (Ok (), w1) →
  create_extension (bundler self) out None w1 = (Ok module_file, w2) →
  (∀ f, f ∈ temp_files → is_dir (w_fs w2) (out ++ [f]) = false) →
  ∃ w3,
    build_cleanup out w2 = (Ok (), w3)
    ∧ (∀ f, f ∈ temp_files → absent (out ++ [f]) w3)
    ∧ (∀ k bytes, (∀ f, f ∈ temp_files → k ≠ out ++ [f]) →
                  w_fs w2 !! k = Some (File bytes) → w_fs w3 !! k = Some (File bytes))
    ∧ (∀ k, (∀ f, f ∈ temp_files → k ≠ out ++ [f]) → k ≠ out ++ ["build"] →
            w_fs w3 !! k = w_fs w2 !! k)
    ∧ build self out s
      = build_pack self out module_file (State w3 (st_calls s ++ [CallCreateExtension out]))
    ∧ ((∀ f, f ∈ temp_files →
             preserved (absent (out ++ [f]))
               (create_wheel (bundler self) (out ++ ["codeenigma_runtime"]) (Some out))) →
       ∀ f, f ∈ temp_files → absent (out ++ [f]) (st_world (build self out s).2)).
Proof.
  intros Hprep Hext Hfiles.
  destruct (build_cleanup_run out w2 Hfiles) as (w3 & Hclean & _ & Habs & Hframe & Hkeep).
  exists w3.
  assert (build self out s
          = build_pack self out module_file
              (State w3 (st_calls s ++ [CallCreateExtension out]))) as Hrun.
  { unfold build.
    rewrite (bind_ok _ _ _ _ _ (liftW_eq _ _ _ _ Hprep)).
    erewrite bind_ok by reflexivity.
    rewrite (bind_ok _ _ _ _ _ (liftW_eq _ (State _ _) _ _ Hext)).
    by rewrite (bind_ok _ _ _ _ _ (liftW_eq _ (State _ _) _ _ Hclean)). }
  repeat (split; [done|]).
  intros Hwheel f Hf. rewrite Hrun.
  destruct (build_pack _ _ _ _) as [r s'] eqn:Hpack.
  eapply (absent_temp_build_pack self out module_file f Hf (Hwheel f Hf)); [done|].
  simpl. by apply Habs.
Qed.

End BuildFacts.

(** ** Looking for the compiled module *)

Lemma elem_of_children (fs : gmap path node) (d k : path) :
  k ∈ children fs d ↔ ∃ n, k = d ++ [n] ∧ is_Some (fs !! k).
Proof.
  unfold children. rewrite list_elem_of_filter, elem_of_elements, elem_of_dom.
  split.
  - intros [[Hne Hpar] Hk]. exists (name k). split; [|done].
    unfold parent in Hpar. rewrite <- Hpar. unfold name.
    destruct (exists_last Hne) as (l & x & ->).
    by rewrite removelast_last, last_snoc.
  - intros (n & -> & Hk). split; [|done]. split; [by destruct d|].
    unfold parent. apply removelast_last.
Qed.

Lemma filter_none {A} (P : A → Prop) `{!∀ x, Decision (P x)} (l : list A) :
  (∀ x, x ∈ l → ¬ P x) → filter P l = [].
Proof.
  intros Hl. destruct (filter P l) as [|x xs] eqn:E; [done|].
  assert (x ∈ filter P l) as [HP Hx]%list_elem_of_filter by (rewrite E; left).
  by destruct (Hl x Hx).
Qed.

Lemma name_snoc (d : path) (n : string) : name (d ++ [n]) = n.
Proof. unfold name. by rewrite last_snoc. Qed.

Lemma path_exists_run (p : path) (w : world) :
  path_exists p w = (Ok (exists_ (w_fs w) p), w).
Proof. done. Qed.

Lemma last_item_nil {A} (w : world) : last_item (A := A) [] w = (Raise IndexError, w).
Proof. done. Qed.

Section LookupFacts.
Context `{!Host}.

Lemma scan_order_nil : scan_order [] = [].
Proof. apply Permutation_nil. symmetry. apply scan_order_perm. Qed.

Lemma glob_no_match (d : path) (matches : string → bool) (w : world) :
  no_match (w_fs w) d matches → glob d matches w = (Ok [], w).
Proof.
  intros Hno. unfold glob. run. destruct (is_dir (w_fs w) d); [|done].
  assert (filter (λ k, matches (name k) = true) (children (w_fs w) d) = []) as ->;
    [|by rewrite scan_order_nil].
  apply filter_none. intros k (n & -> & Hk)%elem_of_children.
  rewrite name_snoc. by rewrite (Hno n Hk).
Qed.

Lemma glob_then_last_item {A} (d : path) (matches : string → bool) (w : world)
    (k : path → W A) :
  no_match (w_fs w) d matches →
  (candidates ← glob d matches; item ← last_item candidates; k item) w
  = (Raise IndexError, w).
Proof.
  intros Hno. rewrite (bind_ok _ _ _ _ _ (glob_no_match _ _ _ Hno)).
  by rewrite (bind_raise _ _ _ _ _ (last_item_nil w)).
Qed.

(** C9. When the compile step has succeeded and no entry of the build
    location has a name ending in the compiled-module extension,
    [create_extension] of the Poetry, UV and Standard bundlers raises
    [IndexError]; so does the [try] block of the [build] command when no
    entry of the relocated runtime directory matches
    [codeenigma_runtime*.<ext>].  In each case the world is the one the last
    successful step left. *)
Theorem compiled_module_lookup_raises_IndexError
    (module_path : path) (output_dir : option path) (w w2 : world) :
  (exists_ (w_fs w) (joinpath (setup_location (w_fs w) module_path) "setup.py") = true →
   PoetryBundler.build_ext (setup_location (w_fs w) module_path)
     (printed w ["[bold blue]Building extension using poetry[/bold blue]"]) = (Ok (), w2) →
   no_match (w_fs w2) (setup_location (w_fs w) module_path)
     (matches_suffix EXTENSION_COMPILED_MODULE) →
   PoetryBundler.create_extension module_path output_dir w = (Raise IndexError, w2))
  ∧ (exists_ (w_fs w) (joinpath (setup_location (w_fs w) module_path) "setup.py") = true →
     UVBundler.build_ext (setup_location (w_fs w) module_path)
       (printed w ["[bold blue]Building extension using uv[/bold blue]"]) = (Ok (), w2) →
     no_match (w_fs w2) (setup_location (w_fs w) module_path)
       (matches_suffix UVBundler.EXTENSION_COMPILED_MODULE) →
     UVBundler.create_extension module_path output_dir w = (Raise IndexError, w2))
  ∧ (StandardBundler._check_for_setuptools_project (parent module_path) w = (Ok (), w) →
     subprocess_run [sys_executable; "setup.py"; "build_ext"; "--inplace"]
       (setup_location (w_fs w) module_path) w = (Ok (), w2) →
     no_match (w_fs w2) (setup_location (w_fs w) module_path)
       (matches_suffix EXTENSION_COMPILED_MODULE) →
     StandardBundler.create_extension module_path output_dir w = (Raise IndexError, w2))
  ∧ (∀ (dist dest : path) (exe_name : string),
       no_match (w_fs w) dest
         (matches_stem_ext "codeenigma_runtime" EXTENSION_COMPILED_MODULE) →
       build_exe module_path dist dest exe_name w = (Raise IndexError, w))
  ∧ (∀ (dist dest : path) (exe_name : string),
       build_merge module_path dist
         (printed w ["[bold]Starting pyinstaller build...[/bold]"]) = (Ok dest, w2) →
       no_match (w_fs w2) dest
         (matches_stem_ext "codeenigma_runtime" EXTENSION_COMPILED_MODULE) →
       build_body module_path dist exe_name w = (Raise IndexError, w2)).
Proof.
  split; [|split; [|split; [|split]]].
  - intros Hsetup Hext Hno. unfold PoetryBundler.create_extension.
    erewrite bind_ok by apply path_exists_run. cbv beta zeta.
    fold (setup_location (w_fs w) module_path).
    erewrite bind_ok by apply path_exists_run. cbv beta. rewrite Hsetup. cbv iota beta.
    change (negb true) with false. cbv iota.
    erewrite bind_ok by apply print_run.
    rewrite (bind_ok _ _ _ _ _ Hext). by apply glob_then_last_item.
  - intros Hsetup Hext Hno. unfold UVBundler.create_extension.
    erewrite bind_ok by apply path_exists_run. cbv beta zeta.
    fold (setup_location (w_fs w) module_path).
    erewrite bind_ok by apply path_exists_run. cbv beta. rewrite Hsetup.
    change (negb true) with false. cbv iota.
    erewrite bind_ok by apply print_run.
    rewrite (bind_ok _ _ _ _ _ Hext). by apply glob_then_last_item.
  - intros Hcheck Hext Hno. unfold StandardBundler.create_extension.
    rewrite (bind_ok _ _ _ _ _ Hcheck).
    erewrite bind_ok by apply path_exists_run. cbv beta zeta.
    fold (setup_location (w_fs w) module_path).
    rewrite (bind_ok _ _ _ _ _ Hext). by apply glob_then_last_item.
  - intros dist dest exe_name Hno. unfold build_exe. by apply glob_then_last_item.
  - intros dist dest exe_name Hmerge Hno. unfold build_body.
    erewrite bind_ok by apply print_run.
    rewrite (bind_ok _ _ _ _ _ Hmerge). unfold build_exe. by apply glob_then_last_item.
Qed.

(** In the [build] command any exception of the [try] block, this
    [IndexError] included, is printed and turned into exit code 1, and the
    environment variable is put back to ["0"]. *)
Lemma build_command_reports_failure
    (module_path : path) (exe_name : string) (expiration_date : option string)
    (output_dir : path) (verbose : bool) (s s1 : state) (w2 : world) (e : exn) :
  obfuscate module_path expiration_date output_dir verbose
    (State (with_env (st_world s) "CODEENIGMA_BUILDING_EXE" "1") (st_calls s))
  = (Ok (), s1) →
  build_body module_path output_dir exe_name (st_world s1) = (Raise e, w2) →
  build_command module_path exe_name expiration_date output_dir verbose s
  = (Raise (TyperExit 1),
     State (with_env
              (printed w2 ["[bold red]Error during build:[/bold red] "
                           +:+ format_exception e])
              "CODEENIGMA_BUILDING_EXE" "0")
           (st_calls s1)).
Proof.
  intros Hobf Hbody. unfold build_command.
  erewrite bind_ok by reflexivity.
  rewrite (bind_ok _ _ _ _ _ Hobf).
  unfold try_finally, try_except.
  rewrite (liftW_eq _ _ _ _ Hbody). by destruct s1.
Qed.

End LookupFacts.

(** ** The merged packaging of the [build] command *)

Lemma not_prefix_sibling (o : path) (a b : string) (rest1 rest2 : path) :
  a ≠ b → ¬ (o ++ a :: rest1) `prefix_of` (o ++ b :: rest2).
Proof.
  intros Hab [y Hy]. rewrite <- (assoc_L (++)) in Hy.
  apply (inj (app o)) in Hy. simpl in Hy. congruence.
Qed.

Lemma is_file_stat (fs : gmap path node) (k : path) :
  is_file fs k = true → ∃ bytes, stat fs k = Some (File bytes) ∧ fs !! k = Some (File bytes).
Proof.
  unfold is_file. destruct (stat fs k) as [[bytes|]|] eqn:E; try done.
  intros _. exists bytes. split; [done|]. by apply stat_file in E as [].
Qed.

Section MergeFacts.
Context `{!Host}.


Lemma rewrite_one (f : string → string) (k : path) (bytes : string) (w : world) :
  stat (w_fs w) k = Some (File bytes) →
  locale_decodes bytes = true →
  (file_text ← read_text k; write_text k (f file_text)) w
  = (Ok (), with_fs w (<[k := File (PyStr.encode_newlines linesep
                                     (f (PyStr.decode_newlines bytes)))]> (w_fs w))).
Proof.
  intros Hk Hdec. unfold read_text, read_bytes, write_text, write_bytes. run.
  rewrite Hk. simpl. rewrite Hdec. simpl. by rewrite Hk.
Qed.


Lemma rglob_run (d : path) (matches : string → bool) (w : world) :
  is_dir (w_fs w) d = true →
  ∃ files, rglob d matches w = (Ok files, w)
    ∧ NoDup files
    ∧ (∀ k, k ∈ files ↔
            k ∈ dom (w_fs w)
            ∧ d ≠ k ∧ under d k = true ∧ reachable (w_fs w) d k = true
            ∧ matches (name k) = true).
Proof.
  intros Hd. unfold rglob. run. rewrite Hd. eexists. split; [done|]. split.
  - rewrite scan_order_perm. apply NoDup_filter, NoDup_elements.
  - intros k. rewrite scan_order_perm, list_elem_of_filter, elem_of_elements. tauto.
Qed.





End MergeFacts.

(** ** The Poetry bundler and the builder's intermediate files *)

Lemma preserved_bind_post {S A B} (I : S → Prop) (Q : A → Prop)
    (m : SE S A) (k : A → SE S B) :
  preserved I m → (∀ s a s', m s = (Ok a, s') → Q a) →
  (∀ a, Q a → preserved I (k a)) → preserved I (m ≫= k).
Proof.
  intros Hm HQ Hk s r s'. unfold mbind, SE_bind, bind.
  destruct (m s) as [[a|e] s1] eqn:E; intros Hr Hs.
  - eapply Hk; [by eapply HQ|done|]. by eapply Hm.
  - injection Hr as <- <-. by eapply Hm.
Qed.

Lemma preserved_read_only {S A} (I : S → Prop) (m : SE S A) :
  (∀ s, (m s).2 = s) → preserved I m.
Proof. intros Hro s r s' Hm. specialize (Hro s). rewrite Hm in Hro. by subst. Qed.

Lemma last_item_elem {A} (xs : list A) (w : world) (x : A) (w' : world) :
  last_item xs w = (Ok x, w') → x ∈ xs.
Proof.
  unfold last_item. destruct (last xs) as [y|] eqn:E; [|done].
  intros [= <- _]. apply last_Some in E as [l ->]. set_solver.
Qed.

Lemma lookup_rmtree (p k : path) (fs : gmap path node) :
  ¬ p `prefix_of` k →
  filter (λ kv : path * node, ¬ p `prefix_of` kv.1) fs !! k = fs !! k.
Proof.
  intros Hk. destruct (fs !! k) as [n|] eqn:E.
  - by apply map_lookup_filter_Some.
  - apply map_lookup_filter_None. by left.
Qed.

Section PoetryFrames.
Context `{!Host}.

Lemma glob_matches (d : path) (matches : string → bool) (w : world)
    (files : list path) (w' : world) :
  glob d matches w = (Ok files, w') → ∀ p, p ∈ files → matches (name p) = true.
Proof.
  unfold glob. run. intros [= <- _] p. destruct (is_dir _ _); [|by intros ?%elem_of_nil].
  rewrite scan_order_perm. by intros [? _]%list_elem_of_filter.
Qed.

Lemma holds_subprocess_run (k : path) (v : option node) (argv : list string) (cwd : path) :
  (∀ fs, fs !! k = v → (run_process argv cwd fs).2 !! k = v) →
  preserved (λ w, w_fs w !! k = v) (subprocess_run argv cwd).
Proof.
  intros Hframe w r w'. unfold subprocess_run. specialize (Hframe (w_fs w)).
  destruct (run_process argv cwd (w_fs w)) as [[|code] fs']; simpl in *.
  - by intros [= <- <-].
  - destruct (code =? 0)%Z; intros [= <- <-]; simpl; auto.
Qed.

Lemma holds_rmtree (k : path) (v : option node) (p : path) :
  ¬ p `prefix_of` k → preserved (λ w, w_fs w !! k = v) (rmtree p).
Proof.
  intros Hk w r w'. unfold rmtree. run.
  destruct (stat (w_fs w) p) as [[|]|]; intros [= <- <-]; try done.
  simpl. by rewrite lookup_rmtree.
Qed.

Lemma holds_print (k : path) (v : option node) (msg : string) :
  preserved (λ w, w_fs w !! k = v) (print msg).
Proof. by intros w r w' [= <- <-]. Qed.

(** What [create_extension] of the Poetry bundler, called the way the
    builder calls it, leaves at a path the external tools do not touch and
    that is not inside [build]: what was there. *)
Lemma poetry_create_extension_keeps (out k : path) (v : option node)
    (w : world) (r : res path) (w' : world) :
  exists_ (w_fs w) (out ++ ["setup.py"]) = true →
  (∀ argv fs, fs !! k = v → (run_process argv out fs).2 !! k = v) →
  ¬ (out ++ ["build"]) `prefix_of` k →
  PoetryBundler.create_extension out None w = (r, w') →
  w_fs w !! k = v → w_fs w' !! k = v.
Proof.
  intros Hsetup Hproc Hbuild.
  assert (preserved (λ w, w_fs w !! k = v)
    (print "[bold blue]Building extension using poetry[/bold blue]";;
     PoetryBundler.build_ext out;;
     candidates ← glob out (matches_suffix EXTENSION_COMPILED_MODULE);
     module_file ← last_item candidates;
     rmtree (out ++ ["build"]);;
     print (extension_built_msg module_file);; ret module_file)) as Hrest.
  { apply preserved_bind; [apply holds_print|intros _].
    apply preserved_bind; [|intros _].
    { apply preserved_try_except; [apply holds_subprocess_run, Hproc|].
      intros e h He. destruct e; try done. injection He as <-.
      apply holds_subprocess_run, Hproc. }
    apply preserved_bind; [by apply preserved_read_only|intros candidates].
    apply preserved_bind.
    { apply preserved_read_only. intros s. unfold last_item. by destruct (last _). }
    intros module_file.
    apply preserved_bind; [by apply holds_rmtree|intros _].
    apply preserved_bind; [apply holds_print|intros _]. apply preserved_ret. }
  unfold PoetryBundler.create_extension.
  erewrite bind_ok by apply path_exists_run. cbv beta zeta. cbn [joinpath].
  rewrite Hsetup.
  erewrite bind_ok by apply path_exists_run. cbv beta. rewrite Hsetup.
  change (negb true) with false. cbv iota.
  apply Hrest.
Qed.

Lemma absent_remove_readme (k p : path) :
  k ≠ p → preserved (absent k) (PoetryBundler.remove_readme_before_build p).
Proof.
  intros Hk. unfold PoetryBundler.remove_readme_before_build.
  apply preserved_bind; [|intros text; by apply absent_write_text].
  apply preserved_read_only. intros w. unfold read_text, read_bytes. run.
  destruct (stat (w_fs w) p) as [[bytes|]|]; simpl; [|done..].
  by destruct (locale_decodes bytes).
Qed.

(** [create_wheel] of the Poetry bundler does not bring a file named [f]
    into the output directory, unless [f] is [pyproject.toml], has the name
    of a wheel, or is made by [poetry build] itself. *)
Lemma poetry_create_wheel_keeps_absent (out : path) (f : string) (remove_readme : bool) :
  f ≠ "pyproject.toml" →
  PyStr.ends_with ".whl" f = false →
  (∀ fs, fs !! (out ++ [f]) = None →
         (run_process ["poetry"; "build"; "-f"; "wheel"] out fs).2 !! (out ++ [f]) = None) →
  preserved (absent (out ++ [f]))
    (PoetryBundler.create_wheel (out ++ ["codeenigma_runtime"]) (Some out) remove_readme).
Proof.
  intros Hf Hwhl Hproc. unfold PoetryBundler.create_wheel.
  assert (parent (out ++ ["codeenigma_runtime"]) = out) as ->
    by apply removelast_last.
  cbn [joinpath].
  assert (out ++ [f] ≠ out ++ ["pyproject.toml"]) as Hpy.
  { intros ?%(inj (app out)). congruence. }
  apply preserved_bind; [by apply preserved_read_only|intros found].
  destruct (negb found); [apply preserved_raise|].
  apply preserved_bind; [|intros content].
  { apply preserved_read_only. intros w. unfold tomllib_load, read_bytes. run.
    destruct (stat (w_fs w) _) as [[bytes|]|]; simpl; [|done..].
    by destruct (tomllib_loads bytes). }
  apply preserved_bind; [|intros version].
  { apply preserved_try_except; [apply preserved_of_res|].
    intros e h He. destruct e; try done. injection He as <-. apply preserved_raise. }
  apply preserved_bind; [|intros _].
  { destruct remove_readme; [by apply absent_remove_readme|apply preserved_ret]. }
  apply preserved_bind; [by apply preserved_read_only|intros building].
  destruct (String.eqb building "0"); [|apply preserved_ret].
  apply preserved_bind; [apply absent_print|intros _].
  apply preserved_bind; [apply holds_subprocess_run, Hproc|intros _].
  apply (preserved_bind_post _
           (λ wheels, ∀ p, p ∈ wheels → matches_wheel (toml_format version) (name p) = true)).
  { by apply preserved_read_only. }
  { intros w wheels w' Hglob. by eapply glob_matches. }
  intros wheels Hwheels.
  apply (preserved_bind_post _ (λ wheel_file, wheel_file ∈ wheels)).
  { apply preserved_read_only. intros s. unfold last_item. by destruct (last _). }
  { intros w wheel_file w'. apply last_item_elem. }
  intros wheel_file Hin. specialize (Hwheels _ Hin).
  apply andb_true_iff in Hwheels as [Hend _].
  assert (name wheel_file ≠ f) as Hname by (intros Heq; congruence).
  assert (joinpath out (name wheel_file) = out ++ [name wheel_file]) as Hjoin.
  { destruct (name wheel_file) eqn:E; [|done]. by vm_compute in Hend. }
  apply preserved_bind; [|intros _].
  { apply absent_mkdir. intros Heq. apply (f_equal length) in Heq.
    rewrite length_app in Heq. simpl in Heq. lia. }
  rewrite Hjoin.
  apply preserved_bind; [|intros _].
  { apply absent_move.
    - intros x. rewrite <- (assoc_L (++)). apply not_prefix_sibling. congruence.
    - apply (not_prefix_sibling out _ _ [] []). done. }
  apply preserved_bind; [apply absent_print|intros _]. apply preserved_ret.
Qed.

End PoetryFrames.

(** ** The statements at work on the sample host *)

Section Examples.
#[local] Existing Instance Sample.host.

Lemma prepare_runtime_code_core_then_fragments_witness :
  prepare_runtime_code Sample.builder ["out"; "codeenigma_runtime.pyx"] Sample.w_out_dir
  = (Ok (), with_fs Sample.w_out_dir
              (<[["out"; "codeenigma_runtime.pyx"] := File "core;first;second;"]>
                 (w_fs Sample.w_out_dir))).
Proof.
  destruct (prepare_runtime_code_core_then_fragments Sample.builder
              ["out"; "codeenigma_runtime.pyx"] Sample.w_out_dir) as [_ Hw].
  destruct Hw as [Hrun _]; [vm_compute; congruence | vm_compute; reflexivity |].
  rewrite Hrun. reflexivity.
Defined.

Lemma build_stops_at_compile_failure_witness :
  build Sample.builder ["out"] (State Sample.w_failing [])
  = (Raise CalledProcessError,
     State Sample.w_failing_compiled [CallCreateExtension ["out"]])
  ∧ is_file (w_fs Sample.w_failing_compiled) ["out"; "setup.py"] = true
  ∧ is_file (w_fs Sample.w_failing_compiled) ["out"; "codeenigma_runtime.pyx"] = true.
Proof.
  destruct (build_stops_at_compile_failure Sample.builder ["out"]
              (State Sample.w_failing []) Sample.w_failing_prepared
              Sample.w_failing_compiled CalledProcessError)
    as (Hrun & _); [vm_compute; reflexivity..|].
  split; [exact Hrun|]. split; vm_compute; reflexivity.
Defined.

Lemma obfuscate_rejects_bad_module_path_witness :
  ∃ banner error,
    obfuscate ["missing"] None ["cedist"] false (State Sample.w_app [])
    = (Raise (TyperExit 1), State (printed Sample.w_app [banner; error]) []).
Proof.
  apply (obfuscate_rejects_bad_module_path ["missing"] None ["cedist"] false
           (State Sample.w_app [])).
  left. vm_compute. reflexivity.
Defined.

Lemma obfuscate_rejects_bad_expiration_witness :
  ∃ banner error,
    obfuscate ["app"] (Some "tomorrow") ["cedist"] false (State Sample.w_app [])
    = (Raise (TyperExit 1), State (printed Sample.w_app [banner; error]) []).
Proof.
  apply (obfuscate_rejects_bad_expiration ["app"] "tomorrow" ["cedist"] false
           (State Sample.w_app [])); [done|].
  left. vm_compute. reflexivity.
Defined.

(** The same check on a date with an offset, in the past. *)
Example obfuscate_rejects_past_expiration :
  ∃ banner error,
    obfuscate ["app"] (Some "2020-01-01 00:00:00+00:00") ["cedist"] false
      (State Sample.w_app [])
    = (Raise (TyperExit 1), State (printed Sample.w_app [banner; error]) []).
Proof.
  eexists _, _. vm_compute. reflexivity.
Qed.

(** C3, as stated, fails on the empty string: it is not a date, yet
    [obfuscate] skips the check, constructs the Orchestrator and runs it to
    the end. *)
Lemma obfuscate_accepts_empty_expiration :
  fromisoformat EmptyString = None
  ∧ (obfuscate ["app"] (Some EmptyString) ["cedist"] false (State Sample.w_app [])).1
    = Ok ()
  ∧ st_calls (obfuscate ["app"] (Some EmptyString) ["cedist"] false
                (State Sample.w_app [])).2
    = [CallOrchestratorNew ["app"] ["cedist"]; CallOrchestratorRun;
       CallCreateExtension ["cedist"];
       CallCreateWheel ["cedist"; "codeenigma_runtime"] ["cedist"]].
Proof. vm_compute. auto. Qed.

(** A date in the documented form [YYYY-MM-DD] parses to a [datetime]
    without offset; comparing it with the current instant raises
    [TypeError], before any call and any write. *)
Example obfuscate_naive_expiration :
  obfuscate ["app"] (Some "2020-01-01") ["cedist"] false (State Sample.w_app [])
  = (Raise TypeError,
     State (printed Sample.w_app ["[bold cyan]Welcome to CodeEnigma v1.0.0[/bold cyan]"]) []).
Proof. vm_compute. reflexivity. Qed.


Lemma remove_readme_before_build_twice_witness :
  PoetryBundler.remove_readme_before_build ["out"; "pyproject.toml"] Sample.w_pyproject
  = (Ok (),
     with_fs Sample.w_pyproject
       (<[["out"; "pyproject.toml"] := File "[tool.poetry] "]> (w_fs Sample.w_pyproject)))
  ∧ PoetryBundler.remove_readme_before_build ["out"; "pyproject.toml"]
      (PoetryBundler.remove_readme_before_build ["out"; "pyproject.toml"]
         Sample.w_pyproject).2
    = PoetryBundler.remove_readme_before_build ["out"; "pyproject.toml"] Sample.w_pyproject
  ∧ PoetryBundler.remove_readme_before_build ["pyproject.toml"] Sample.w_undecodable
    = (Raise UnicodeDecodeError, Sample.w_undecodable).
Proof.
  destruct (remove_readme_before_build_twice ["out"; "pyproject.toml"] Sample.w_pyproject
              ("[tool.poetry] " +:+ README_LINE)) as (_ & _ & Hdec);
    [vm_compute; reflexivity|].
  destruct Hdec as (Hrun & _ & Htwice); [vm_compute; reflexivity|].
  destruct Htwice as [_ Hback]; [vm_compute; reflexivity|].
  destruct (remove_readme_before_build_twice ["pyproject.toml"] Sample.w_undecodable
              (String "255"%char EmptyString)) as (Hraise & _);
    [vm_compute; reflexivity|].
  split; [rewrite Hrun; vm_compute; reflexivity|].
  split; [apply Hback; vm_compute; reflexivity|].
  apply Hraise. vm_compute. reflexivity.
Defined.

(** C10, as stated, fails twice over.  Cutting the readme line out of a
    text that holds a copy of it inside another leaves the readme line, which
    a second application removes; and a file without the line is rewritten
    when it has a carriage return. *)
Lemma remove_readme_not_idempotent :
  w_fs (PoetryBundler.remove_readme_before_build ["pyproject.toml"] Sample.w_nested).2
    !! ["pyproject.toml"] = Some (File README_LINE)
  ∧ w_fs (PoetryBundler.remove_readme_before_build ["pyproject.toml"]
            (PoetryBundler.remove_readme_before_build ["pyproject.toml"]
               Sample.w_nested).2).2
      !! ["pyproject.toml"] = Some (File EmptyString)
  ∧ PoetryBundler.remove_readme_before_build ["pyproject.toml"]
      (PoetryBundler.remove_readme_before_build ["pyproject.toml"] Sample.w_nested).2
    ≠ PoetryBundler.remove_readme_before_build ["pyproject.toml"] Sample.w_nested
  ∧ PyStr.contains README_LINE ("a" +:+ String PyStr.CR (String PyStr.LF "b")) = false
  ∧ w_fs Sample.w_crlf !! ["pyproject.toml"]
    = Some (File ("a" +:+ String PyStr.CR (String PyStr.LF "b")))
  ∧ w_fs (PoetryBundler.remove_readme_before_build ["pyproject.toml"] Sample.w_crlf).2
      !! ["pyproject.toml"] = Some (File ("a" +:+ String PyStr.LF "b")).
Proof.
  assert (w_fs (PoetryBundler.remove_readme_before_build ["pyproject.toml"]
                  Sample.w_nested).2
            !! ["pyproject.toml"] = Some (File README_LINE)) as Hone
    by (vm_compute; reflexivity).
  assert (w_fs (PoetryBundler.remove_readme_before_build ["pyproject.toml"]
                  (PoetryBundler.remove_readme_before_build ["pyproject.toml"]
                     Sample.w_nested).2).2
            !! ["pyproject.toml"] = Some (File EmptyString)) as Htwo
    by (vm_compute; reflexivity).
  split; [exact Hone|]. split; [exact Htwo|]. split.
  - intros Heq. rewrite Heq, Hone in Htwo. discriminate Htwo.
  - repeat split; vm_compute; reflexivity.
Qed.

Lemma compiled_module_lookup_raises_IndexError_witness :
  PoetryBundler.create_extension ["proj"; "mod"] None Sample.w_no_output
  = (Raise IndexError, Sample.w_no_output_compiled).
Proof.
  destruct (compiled_module_lookup_raises_IndexError ["proj"; "mod"] None
              Sample.w_no_output Sample.w_no_output_compiled) as (Hpoetry & _).
  apply Hpoetry; [vm_compute; reflexivity..|].
  intros n [v Hv]. change (setup_location _ _) with ["proj"] in *.
  change (w_fs Sample.w_no_output_compiled) with (w_fs Sample.w_no_output) in Hv.
  unfold Sample.w_no_output, Sample.world_of in Hv. cbn [w_fs] in Hv.
  repeat (apply lookup_insert_Some in Hv as [[Hk _]|[_ Hv]];
          [try discriminate Hk; injection Hk as <-; vm_compute; reflexivity|]).
  apply lookup_singleton_Some in Hv as [Hk _].
  injection Hk as <-. vm_compute. reflexivity.
Defined.

(** [str.replace] on a stub with two imports, and on overlapping
    occurrences, where the scan resumes after the one it replaced. *)
Example replace_two_imports :
  PyStr.replace old_text (new_text "proj")
    "from codeenigma_runtime import a; from codeenigma_runtime import b"
  = "from proj.codeenigma_runtime import a; from proj.codeenigma_runtime import b".
Proof. vm_compute. reflexivity. Qed.

Example replace_overlapping : PyStr.replace "aa" "b" "aaa" = "ba".
Proof. vm_compute. reflexivity. Qed.

Lemma sample_poetry_build_keeps_absent (f : string) (fs : gmap path node) :
  f ≠ "dist" →
  fs !! (["out"] ++ [f]) = None →
  (run_process ["poetry"; "build"; "-f"; "wheel"] ["out"] fs).2 !! (["out"] ++ [f]) = None.
Proof.
  intros Hf Hfs. cbn [run_process Sample.host]. unfold Sample.process.
  destruct (exists_ fs _); [done|].
  rewrite bool_decide_eq_false_2 by (vm_compute; congruence).
  rewrite bool_decide_eq_true_2 by done. cbn [snd].
  rewrite !lookup_insert_ne; [done|..]; simpl; congruence.
Qed.

Lemma build_cleans_up_before_packaging_witness :
  build_cleanup ["out"] Sample.w_compiled
  = (Ok (), (build_cleanup ["out"] Sample.w_compiled).2)
  ∧ is_file (w_fs Sample.w_compiled) ["out"; "codeenigma_runtime.c"] = true
  ∧ absent ["out"; "setup.py"]
      (st_world (build Sample.builder ["out"] (State Sample.w_out_dir [])).2)
  ∧ absent ["out"; "codeenigma_runtime.pyx"]
      (st_world (build Sample.builder ["out"] (State Sample.w_out_dir [])).2)
  ∧ absent ["out"; "codeenigma_runtime.c"]
      (st_world (build Sample.builder ["out"] (State Sample.w_out_dir [])).2).
Proof.
  destruct (build_cleans_up_before_packaging Sample.builder ["out"]
              (State Sample.w_out_dir []) Sample.w_prepared Sample.w_compiled
              ["out"; "codeenigma_runtime.so"])
    as (w3 & Hclean & _ & _ & _ & _ & Hend).
  - vm_compute. reflexivity.
  - vm_compute. reflexivity.
  - apply elem_of_temp_files; vm_compute; reflexivity.
  - assert (∀ f, f ∈ temp_files →
                 absent (["out"] ++ [f])
                   (st_world (build Sample.builder ["out"] (State Sample.w_out_dir [])).2))
      as Habs.
    { apply Hend. apply elem_of_temp_files;
        (apply (poetry_create_wheel_keeps_absent ["out"] _ true);
         [done | vm_compute; reflexivity |
          intros fs; by apply sample_poetry_build_keeps_absent]). }
    split; [by rewrite Hclean|]. split; [vm_compute; reflexivity|].
    repeat split; apply (Habs _); set_solver.
Defined.



End Examples.

(** * Further properties of the bundlers, the builder and the command line *)

Lemma subprocess_run_not_found `{!Host} (argv : list string) (cwd : path) (w : world)
    (fs' : gmap path node) :
  run_process argv cwd (w_fs w) = (ProcNotFound, fs') →
  subprocess_run argv cwd w = (Raise FileNotFoundError, launched w argv cwd).
Proof. unfold subprocess_run. by intros ->. Qed.

Lemma subprocess_run_exit `{!Host} (argv : list string) (cwd : path) (w : world)
    (code : Z) (fs' : gmap path node) :
  run_process argv cwd (w_fs w) = (ProcExit code, fs') →
  subprocess_run argv cwd w
  = (if (code =? 0)%Z then Ok () else Raise CalledProcessError,
     with_fs (launched w argv cwd) fs').
Proof. unfold subprocess_run. intros ->. by destruct (code =? 0)%Z. Qed.

Section BundlerFacts.
Context `{!Host}.

(** X1. Without a [setup.py] in the module directory or in its parent,
    [create_extension] of the Poetry and UV bundlers raises
    [FileNotFoundError] at once: nothing is printed, no tool is launched, the
    file system is as it was. *)
Theorem create_extension_without_setup_py
    (module_path : path) (output_dir : option path) (w : world) :
  exists_ (w_fs w) (joinpath module_path "setup.py") = false →
  exists_ (w_fs w) (joinpath (parent module_path) "setup.py") = false →
  PoetryBundler.create_extension module_path output_dir w = (Raise FileNotFoundError, w)
  ∧ UVBundler.create_extension module_path output_dir w = (Raise FileNotFoundError, w).
Proof.
  intros Hhere Hparent. split.
  - unfold PoetryBundler.create_extension.
    erewrite bind_ok by apply path_exists_run. cbv beta zeta. rewrite Hhere.
    erewrite bind_ok by apply path_exists_run. cbv beta. by rewrite Hparent.
  - unfold UVBundler.create_extension.
    erewrite bind_ok by apply path_exists_run. cbv beta zeta. rewrite Hhere.
    erewrite bind_ok by apply path_exists_run. cbv beta. by rewrite Hparent.
Qed.

(** X2. The compile step of the Poetry and UV bundlers.  When the tool
    ([poetry], [uv]) exits with status 0 nothing else is launched; when it
    exits with another status the running interpreter compiles in the same
    directory, on what the tool left, and its outcome is the outcome of the
    step; when the tool cannot be started at all, [FileNotFoundError]
    propagates and the interpreter is not tried. *)
Theorem build_ext_falls_back_on_exit_status_only
    (location : path) (w : world) (fs' : gmap path node) :
  (run_process poetry_build_ext location (w_fs w) = (ProcExit 0, fs') →
   PoetryBundler.build_ext location w
   = (Ok (), with_fs (launched w poetry_build_ext location) fs'))
  ∧ (∀ code, code ≠ 0%Z →
       run_process poetry_build_ext location (w_fs w) = (ProcExit code, fs') →
       PoetryBundler.build_ext location w
       = subprocess_run python_build_ext location
           (with_fs (launched w poetry_build_ext location) fs'))
  ∧ (run_process poetry_build_ext location (w_fs w) = (ProcNotFound, fs') →
     PoetryBundler.build_ext location w
     = (Raise FileNotFoundError, launched w poetry_build_ext location))
  ∧ (run_process uv_build_ext location (w_fs w) = (ProcExit 0, fs') →
     UVBundler.build_ext location w
     = (Ok (), with_fs (launched w uv_build_ext location) fs'))
  ∧ (∀ code, code ≠ 0%Z →
       run_process uv_build_ext location (w_fs w) = (ProcExit code, fs') →
       UVBundler.build_ext location w
       = subprocess_run python_build_ext location
           (with_fs (launched w uv_build_ext location) fs'))
  ∧ (run_process uv_build_ext location (w_fs w) = (ProcNotFound, fs') →
     UVBundler.build_ext location w
     = (Raise FileNotFoundError, launched w uv_build_ext location)).
Proof.
  repeat split.
  - intros Hp. unfold PoetryBundler.build_ext, try_except.
    change ["poetry"; _; _; _; _; _] with poetry_build_ext.
    by rewrite (subprocess_run_exit _ _ _ _ _ Hp).
  - intros code Hcode Hp. unfold PoetryBundler.build_ext, try_except.
    change ["poetry"; _; _; _; _; _] with poetry_build_ext.
    rewrite (subprocess_run_exit _ _ _ _ _ Hp).
    apply Z.eqb_neq in Hcode. by rewrite Hcode.
  - intros Hp. unfold PoetryBundler.build_ext, try_except.
    change ["poetry"; _; _; _; _; _] with poetry_build_ext.
    by rewrite (subprocess_run_not_found _ _ _ _ Hp).
  - intros Hp. unfold UVBundler.build_ext, try_except.
    change ["uv"; _; _; _; _; _] with uv_build_ext.
    by rewrite (subprocess_run_exit _ _ _ _ _ Hp).
  - intros code Hcode Hp. unfold UVBundler.build_ext, try_except.
    change ["uv"; _; _; _; _; _] with uv_build_ext.
    rewrite (subprocess_run_exit _ _ _ _ _ Hp).
    apply Z.eqb_neq in Hcode. by rewrite Hcode.
  - intros Hp. unfold UVBundler.build_ext, try_except.
    change ["uv"; _; _; _; _; _] with uv_build_ext.
    by rewrite (subprocess_run_not_found _ _ _ _ Hp).
Qed.

End BundlerFacts.

(** ** Finishing [create_extension] *)

Lemma rmtree_run (p : path) (w : world) :
  is_dir (w_fs w) p = true →
  rmtree p w = (Ok (), with_fs w (without_tree p (w_fs w))).
Proof.
  unfold rmtree, is_dir. run. by destruct (stat (w_fs w) p) as [[|]|].
Qed.

Lemma rmtree_missing (p : path) (w : world) :
  exists_ (w_fs w) p = false → rmtree p w = (Raise FileNotFoundError, w).
Proof.
  unfold rmtree, exists_. run. by destruct (stat (w_fs w) p) as [[|]|].
Qed.

Lemma last_item_some {A} (xs : list A) (x : A) (w : world) :
  last xs = Some x → last_item xs w = (Ok x, w).
Proof. unfold last_item. by intros ->. Qed.

Lemma joinpath_free (fs : gmap path node) (d : path) (n : string) :
  is_dir fs d = true → exists_ fs (joinpath d n) = false →
  joinpath d n = d ++ [n] ∧ parent (joinpath d n) = d.
Proof.
  intros Hd Hfree. destruct n as [|c n].
  - simpl in Hfree. unfold is_dir, exists_ in *. by destruct (stat fs d) as [[|]|].
  - split; [done|]. apply removelast_last.
Qed.

Lemma move_file_run (src dst : path) (bytes : string) (w : world) :
  stat (w_fs w) src = Some (File bytes) →
  exists_ (w_fs w) dst = false →
  is_dir (w_fs w) (parent dst) = true →
  move src dst w = (Ok (), with_fs w (<[dst := File bytes]> (delete src (w_fs w)))).
Proof.
  intros Hsrc Hdst Hpar. unfold move, move_onto. run.
  unfold is_dir, exists_ in *.
  destruct (stat (w_fs w) dst) as [[|]|]; [done..|]. simpl. rewrite Hsrc.
  by destruct (stat (w_fs w) (parent dst)) as [[|]|].
Qed.

Section FinishFacts.
Context `{!Host}.

(** X3. Once the compile step has succeeded and the build location holds
    entries with the compiled-module extension, [create_extension] of the
    Poetry and UV bundlers, called without output directory, returns the
    last such entry and deletes the tree at [build], changing nothing else;
    when the compile step left no [build] directory it raises
    [FileNotFoundError] instead, although a module was found. *)
Theorem create_extension_returns_last_candidate
    (module_path : path) (w w2 : world) (candidates : list path) (module_file : path) :
  exists_ (w_fs w) (joinpath (setup_location (w_fs w) module_path) "setup.py") = true →
  last candidates = Some module_file →
  (PoetryBundler.build_ext (setup_location (w_fs w) module_path)
     (printed w ["[bold blue]Building extension using poetry[/bold blue]"]) = (Ok (), w2) →
   glob (setup_location (w_fs w) module_path)
     (matches_suffix EXTENSION_COMPILED_MODULE) w2 = (Ok candidates, w2) →
   (is_dir (w_fs w2) (setup_location (w_fs w) module_path ++ ["build"]) = true →
    PoetryBundler.create_extension module_path None w
    = (Ok module_file,
       printed (with_fs w2 (without_tree (setup_location (w_fs w) module_path ++ ["build"])
                              (w_fs w2)))
         [extension_built_msg module_file]))
   ∧ (exists_ (w_fs w2) (setup_location (w_fs w) module_path ++ ["build"]) = false →
      ∀ output_dir,
        PoetryBundler.create_extension module_path output_dir w
        = (Raise FileNotFoundError, w2)))
  ∧ (UVBundler.build_ext (setup_location (w_fs w) module_path)
       (printed w ["[bold blue]Building extension using uv[/bold blue]"]) = (Ok (), w2) →
     glob (setup_location (w_fs w) module_path)
       (matches_suffix UVBundler.EXTENSION_COMPILED_MODULE) w2 = (Ok candidates, w2) →
     (is_dir (w_fs w2) (setup_location (w_fs w) module_path ++ ["build"]) = true →
      UVBundler.create_extension module_path None w
      = (Ok module_file,
         printed (with_fs w2 (without_tree (setup_location (w_fs w) module_path ++ ["build"])
                                (w_fs w2)))
           [extension_built_msg module_file]))
     ∧ (exists_ (w_fs w2) (setup_location (w_fs w) module_path ++ ["build"]) = false →
        ∀ output_dir,
          UVBundler.create_extension module_path output_dir w
          = (Raise FileNotFoundError, w2))).
Proof.
  intros Hsetup Hlast. split.
  - intros Hext Hglob. split.
    + intros Hbuild. unfold PoetryBundler.create_extension.
      erewrite bind_ok by apply path_exists_run. cbv beta zeta.
      fold (setup_location (w_fs w) module_path).
      erewrite bind_ok by apply path_exists_run. cbv beta. rewrite Hsetup.
      change (negb true) with false. cbv iota.
      erewrite bind_ok by apply print_run.
      rewrite (bind_ok _ _ _ _ _ Hext), (bind_ok _ _ _ _ _ Hglob).
      rewrite (bind_ok _ _ _ _ _ (last_item_some _ _ _ Hlast)). cbn [joinpath].
      by rewrite (bind_ok _ _ _ _ _ (rmtree_run _ _ Hbuild)).
    + intros Hbuild output_dir. unfold PoetryBundler.create_extension.
      erewrite bind_ok by apply path_exists_run. cbv beta zeta.
      fold (setup_location (w_fs w) module_path).
      erewrite bind_ok by apply path_exists_run. cbv beta. rewrite Hsetup.
      change (negb true) with false. cbv iota.
      erewrite bind_ok by apply print_run.
      rewrite (bind_ok _ _ _ _ _ Hext), (bind_ok _ _ _ _ _ Hglob).
      rewrite (bind_ok _ _ _ _ _ (last_item_some _ _ _ Hlast)). cbn [joinpath].
      by rewrite (bind_raise _ _ _ _ _ (rmtree_missing _ _ Hbuild)).
  - intros Hext Hglob. split.
    + intros Hbuild. unfold UVBundler.create_extension.
      erewrite bind_ok by apply path_exists_run. cbv beta zeta.
      fold (setup_location (w_fs w) module_path).
      erewrite bind_ok by apply path_exists_run. cbv beta. rewrite Hsetup.
      change (negb true) with false. cbv iota.
      erewrite bind_ok by apply print_run.
      rewrite (bind_ok _ _ _ _ _ Hext), (bind_ok _ _ _ _ _ Hglob).
      rewrite (bind_ok _ _ _ _ _ (last_item_some _ _ _ Hlast)). cbn [joinpath].
      by rewrite (bind_ok _ _ _ _ _ (rmtree_run _ _ Hbuild)).
    + intros Hbuild output_dir. unfold UVBundler.create_extension.
      erewrite bind_ok by apply path_exists_run. cbv beta zeta.
      fold (setup_location (w_fs w) module_path).
      erewrite bind_ok by apply path_exists_run. cbv beta. rewrite Hsetup.
      change (negb true) with false. cbv iota.
      erewrite bind_ok by apply print_run.
      rewrite (bind_ok _ _ _ _ _ Hext), (bind_ok _ _ _ _ _ Hglob).
      rewrite (bind_ok _ _ _ _ _ (last_item_some _ _ _ Hlast)). cbn [joinpath].
      by rewrite (bind_raise _ _ _ _ _ (rmtree_missing _ _ Hbuild)).
Qed.

(** X4. With an output directory, [create_extension] of the Poetry bundler
    moves the compiled module there after deleting the build tree and returns
    its new path: the module is a file of the output directory and is gone
    from the build location. *)
Theorem poetry_create_extension_moves_module
    (module_path out : path) (w w2 : world) (candidates : list path)
    (module_file : path) (bytes : string) :
  exists_ (w_fs w) (joinpath (setup_location (w_fs w) module_path) "setup.py") = true →
  PoetryBundler.build_ext (setup_location (w_fs w) module_path)
    (printed w ["[bold blue]Building extension using poetry[/bold blue]"]) = (Ok (), w2) →
  glob (setup_location (w_fs w) module_path)
    (matches_suffix EXTENSION_COMPILED_MODULE) w2 = (Ok candidates, w2) →
  last candidates = Some module_file →
  is_dir (w_fs w2) (setup_location (w_fs w) module_path ++ ["build"]) = true →
  stat (without_tree (setup_location (w_fs w) module_path ++ ["build"]) (w_fs w2))
    module_file = Some (File bytes) →
  is_dir (without_tree (setup_location (w_fs w) module_path ++ ["build"]) (w_fs w2))
    out = true →
  exists_ (without_tree (setup_location (w_fs w) module_path ++ ["build"]) (w_fs w2))
    (joinpath out (name module_file)) = false →
  PoetryBundler.create_extension module_path (Some out) w
  = (Ok (out ++ [name module_file]),
     printed
       (with_fs w2
          (<[out ++ [name module_file] := File bytes]>
             (delete module_file
                (without_tree (setup_location (w_fs w) module_path ++ ["build"])
                   (w_fs w2)))))
       [extension_built_msg (out ++ [name module_file])]).
Proof.
  intros Hsetup Hext Hglob Hlast Hbuild Hfile Hout Hfree.
  destruct (joinpath_free _ _ _ Hout Hfree) as [Hjoin Hparent].
  unfold PoetryBundler.create_extension.
  erewrite bind_ok by apply path_exists_run. cbv beta zeta.
  fold (setup_location (w_fs w) module_path).
  erewrite bind_ok by apply path_exists_run. cbv beta. rewrite Hsetup.
  change (negb true) with false. cbv iota.
  erewrite bind_ok by apply print_run.
  rewrite (bind_ok _ _ _ _ _ Hext), (bind_ok _ _ _ _ _ Hglob).
  rewrite (bind_ok _ _ _ _ _ (last_item_some _ _ _ Hlast)). cbn [joinpath].
  rewrite (bind_ok _ _ _ _ _ (rmtree_run _ _ Hbuild)).
  erewrite bind_ok; cycle 1.
  { unfold mkdir_exist_ok. run. unfold is_dir in Hout.
    destruct (stat _ out) as [[|]|]; [done| |done]. reflexivity. }
  erewrite bind_ok; cycle 1.
  { apply (move_file_run _ _ bytes); [exact Hfile|exact Hfree|].
    rewrite Hparent. exact Hout. }
  rewrite Hjoin. reflexivity.
Qed.

End FinishFacts.

(** ** The Standard bundler *)


Lemma mkdir_exist_ok_run (out : path) (w : world) :
  is_dir (w_fs w) out = true
  ∨ (stat (w_fs w) out = None ∧ is_dir (w_fs w) (parent out) = true) →
  mkdir_exist_ok out w = (Ok (), with_fs w (with_dir out (w_fs w))).
Proof.
  unfold mkdir_exist_ok, with_dir, is_dir. run.
  intros [Hd|[Hnone Hpar]].
  - destruct (stat (w_fs w) out) as [[|]|]; [done| |done]. by rewrite with_fs_same.
  - rewrite Hnone. by destruct (stat (w_fs w) (parent out)) as [[|]|].
Qed.










Section StandardFacts.
Context `{!Host}.





End StandardFacts.

Lemma move_file_onto_itself (p : path) (bytes : string) (w : world) :
  stat (w_fs w) p = Some (File bytes) →
  is_dir (w_fs w) (parent p) = true →
  move p p w = (Ok (), w).
Proof.
  intros Hp Hpar. unfold move, move_onto. run. unfold is_dir in *. rewrite Hp. simpl.
  rewrite Hp. destruct (stat (w_fs w) (parent p)) as [[|]|]; [done| |done].
  apply stat_file in Hp as [Hlook _].
  rewrite insert_delete_eq, insert_id by done. by destruct w.
Qed.

Section StandardExtension.
Context `{!Host}.

(** X6. [create_extension] of the Standard bundler takes the output
    directory into account only to create it: the compiled module is moved
    onto the path it already has, stays in the build location, and that path
    is returned, as it is without output directory. *)
Theorem standard_create_extension_keeps_module_in_place
    (module_path out : path) (w w2 : world) (candidates : list path)
    (module_file : path) (bytes : string) :
  StandardBundler._check_for_setuptools_project (parent module_path) w = (Ok (), w) →
  subprocess_run python_build_ext (setup_location (w_fs w) module_path) w = (Ok (), w2) →
  glob (setup_location (w_fs w) module_path)
    (matches_suffix EXTENSION_COMPILED_MODULE) w2 = (Ok candidates, w2) →
  last candidates = Some module_file →
  name module_file ≠ EmptyString →
  is_dir (w_fs w2) (setup_location (w_fs w) module_path ++ ["build"]) = true →
  stat (with_dir out
          (without_tree (setup_location (w_fs w) module_path ++ ["build"]) (w_fs w2)))
    module_file = Some (File bytes) →
  is_dir (with_dir out
            (without_tree (setup_location (w_fs w) module_path ++ ["build"]) (w_fs w2)))
    (setup_location (w_fs w) module_path) = true →
  is_dir (without_tree (setup_location (w_fs w) module_path ++ ["build"]) (w_fs w2)) out
  = true
  ∨ (stat (without_tree (setup_location (w_fs w) module_path ++ ["build"]) (w_fs w2)) out
     = None
     ∧ is_dir (without_tree (setup_location (w_fs w) module_path ++ ["build"]) (w_fs w2))
         (parent out) = true) →
  StandardBundler.create_extension module_path (Some out) w
  = (Ok module_file,
     printed
       (with_fs w2
          (with_dir out
             (without_tree (setup_location (w_fs w) module_path ++ ["build"]) (w_fs w2))))
       [extension_built_msg module_file])
  ∧ StandardBundler.create_extension module_path None w
    = (Ok module_file,
       printed
         (with_fs w2
            (without_tree (setup_location (w_fs w) module_path ++ ["build"]) (w_fs w2)))
         [extension_built_msg module_file]).
Proof.
  intros Hcheck Hrun Hglob Hlast Hname Hbuild Hfile Hloc Hout.
  assert (∃ n, module_file = setup_location (w_fs w) module_path ++ [n]) as [n Hn].
  { pose proof (last_item_some _ _ w2 Hlast) as Hin%last_item_elem.
    revert Hglob. unfold glob. run. intros [= <-].
    destruct (is_dir _ _); [|by apply elem_of_nil in Hin].
    rewrite scan_order_perm in Hin. apply list_elem_of_filter in Hin as [_ Hin].
    apply elem_of_children in Hin as (n & -> & _). eauto. }
  assert (n ≠ EmptyString) as Hne.
  { intros ->. by rewrite Hn, name_snoc in Hname. }
  split.
  - unfold StandardBundler.create_extension.
    rewrite (bind_ok _ _ _ _ _ Hcheck).
    erewrite bind_ok by apply path_exists_run. cbv beta zeta.
    fold (setup_location (w_fs w) module_path).
    change [sys_executable; _; _; _] with python_build_ext.
    rewrite (bind_ok _ _ _ _ _ Hrun), (bind_ok _ _ _ _ _ Hglob).
    rewrite (bind_ok _ _ _ _ _ (last_item_some _ _ _ Hlast)). cbn [joinpath].
    rewrite (bind_ok _ _ _ _ _ (rmtree_run _ _ Hbuild)).
    rewrite (bind_ok _ _ _ _ _ (mkdir_exist_ok_run out (with_fs w2 _) Hout)).
    cbn [with_fs w_fs w_env w_out w_procs w_now].
    assert (joinpath (setup_location (w_fs w) module_path) (name module_file) = module_file)
      as ->.
    { rewrite Hn, name_snoc. by destruct n. }
    erewrite bind_ok; cycle 1.
    { apply (move_file_onto_itself _ bytes); [exact Hfile|].
      rewrite Hn. unfold parent. rewrite removelast_last. exact Hloc. }
    reflexivity.
  - unfold StandardBundler.create_extension.
    rewrite (bind_ok _ _ _ _ _ Hcheck).
    erewrite bind_ok by apply path_exists_run. cbv beta zeta.
    fold (setup_location (w_fs w) module_path).
    change [sys_executable; _; _; _] with python_build_ext.
    rewrite (bind_ok _ _ _ _ _ Hrun), (bind_ok _ _ _ _ _ Hglob).
    rewrite (bind_ok _ _ _ _ _ (last_item_some _ _ _ Hlast)). cbn [joinpath].
    by rewrite (bind_ok _ _ _ _ _ (rmtree_run _ _ Hbuild)).
Qed.

End StandardExtension.

Section CommandFacts.
Context `{!Host}.

(** X7. The [build] command sets [CODEENIGMA_BUILDING_EXE] to ["1"] and
    calls [obfuscate] outside its [try] block: when [obfuscate] raises, the
    exception leaves the command as it is and the variable is not put back.
    When [obfuscate] returns, the command ends normally or with exit code 1,
    whatever the packaging raised, and the variable is ["0"] in both cases;
    the Orchestrator and the bundler are not called again. *)
Theorem build_command_resets_flag
    (module_path : path) (exe_name : string) (expiration_date : option string)
    (output_dir : path) (verbose : bool) (s : state) :
  (∀ e s1,
     obfuscate module_path expiration_date output_dir verbose
       (State (with_env (st_world s) "CODEENIGMA_BUILDING_EXE" "1") (st_calls s))
     = (Raise e, s1) →
     build_command module_path exe_name expiration_date output_dir verbose s = (Raise e, s1))
  ∧ (∀ s1,
       obfuscate module_path expiration_date output_dir verbose
         (State (with_env (st_world s) "CODEENIGMA_BUILDING_EXE" "1") (st_calls s))
       = (Ok (), s1) →
       ∃ r s2,
         build_command module_path exe_name expiration_date output_dir verbose s = (r, s2)
         ∧ (r = Ok () ∨ r = Raise (TyperExit 1))
         ∧ w_env (st_world s2) !! "CODEENIGMA_BUILDING_EXE" = Some "0"
         ∧ st_calls s2 = st_calls s1).
Proof.
  split.
  - intros e s1 Hobf. unfold build_command.
    erewrite bind_ok by reflexivity.
    by rewrite (bind_raise _ _ _ _ _ Hobf).
  - intros s1 Hobf. unfold build_command.
    erewrite bind_ok by reflexivity.
    rewrite (bind_ok _ _ _ _ _ Hobf).
    unfold try_finally, try_except.
    destruct (build_body module_path output_dir exe_name (st_world s1)) as [[[]|e] w2] eqn:Hbody;
      rewrite (liftW_eq _ _ _ _ Hbody).
    + eexists _, _. split; [reflexivity|]. split; [by left|]. split; [|done].
      simpl. apply lookup_insert_eq.
    + eexists _, _. split; [reflexivity|]. split; [by right|]. split; [|done].
      simpl. apply lookup_insert_eq.
Qed.

End CommandFacts.

Section UndecodableStub.
Context `{!Host}.

Lemma rewrite_one_undecodable (f : string → string) (k : path) (bytes : string) (w : world) :
  stat (w_fs w) k = Some (File bytes) →
  locale_decodes bytes = false →
  (file_text ← read_text k; write_text k (f file_text)) w = (Raise UnicodeDecodeError, w).
Proof.
  intros Hk Hdec. unfold read_text, read_bytes. run.
  rewrite Hk. simpl. by rewrite Hdec.
Qed.

Lemma rewrite_loop_undecodable (f : string → string) (l : list path) (bad : path) (w : world) :
  NoDup l →
  (∀ k, k ∈ l → is_file (w_fs w) k = true) →
  bad ∈ l →
  readable (w_fs w) bad = false →
  ∃ fs',
    for_each l (λ file, file_text ← read_text file; write_text file (f file_text)) w
    = (Raise UnicodeDecodeError, with_fs w fs')
    ∧ fs' !! bad = w_fs w !! bad
    ∧ (∀ k, k ∉ l → fs' !! k = w_fs w !! k).
Proof.
  revert w. induction l as [|k l IH]; intros w Hnd Hfiles Hbad Hunread.
  { by apply elem_of_nil in Hbad. }
  apply NoDup_cons in Hnd as [Hk Hnd].
  destruct (is_file_stat _ _ (Hfiles k ltac:(left))) as (bytes & Hst & Hlook).
  destruct (locale_decodes bytes) eqn:Hdec.
  - assert (k ≠ bad) as Hne.
    { intros ->. unfold readable in Hunread. rewrite Hst in Hunread. congruence. }
    apply elem_of_cons in Hbad as [Heq|Hbad]; [congruence|].
    pose proof (rewrite_one f k bytes w Hst Hdec) as Hone.
    set (w1 := with_fs w _) in Hone.
    destruct (IH w1 Hnd) as (fs' & Hrun & Hsame & Hout); [|done| |].
    { intros k' Hk'. unfold is_file.
      destruct (is_file_stat _ _ (Hfiles k' ltac:(by right))) as (b & Hst' & Hlook').
      rewrite stat_nonempty by (apply stat_file in Hst'; tauto).
      simpl. rewrite lookup_insert_ne by (by intros ->). by rewrite Hlook'. }
    { unfold readable in *.
      destruct (is_file_stat _ _ (Hfiles bad ltac:(by right))) as (b & Hst' & Hlook').
      rewrite stat_nonempty by (apply stat_file in Hst'; tauto).
      simpl. rewrite lookup_insert_ne by done. rewrite Hlook'.
      by rewrite Hst' in Hunread. }
    exists fs'. split; [|split].
    + cbn [for_each]. rewrite (bind_ok _ _ _ _ _ Hone). by rewrite Hrun.
    + rewrite Hsame. simpl. by rewrite lookup_insert_ne.
    + intros k' [Hne' Hnin]%not_elem_of_cons. rewrite Hout by done.
      simpl. by rewrite lookup_insert_ne.
  - exists (w_fs w). split; [|done].
    cbn [for_each].
    rewrite (bind_raise _ _ _ _ _ (rewrite_one_undecodable f k bytes w Hst Hdec)).
    by rewrite with_fs_same.
Qed.

(** X8. A [.py] entry below the application directory that the codec of
    the locale cannot decode stops the merged packaging of [build] with
    [UnicodeDecodeError]: the entry itself and every path that is not such an
    entry are as they were, so the gatekeeper has not been moved. *)
Theorem build_merge_stops_at_undecodable_stub
    (module_path output_dir bad : path) (w : world) :
  is_dir (w_fs w) (joinpath output_dir (name (parent module_path))) = true →
  (∀ k, k ∈ dom (w_fs w) →
        is_stub (w_fs w) (joinpath output_dir (name (parent module_path))) k →
        is_file (w_fs w) k = true) →
  bad ∈ dom (w_fs w) →
  is_stub (w_fs w) (joinpath output_dir (name (parent module_path))) bad →
  readable (w_fs w) bad = false →
  ∃ w',
    build_merge module_path output_dir w = (Raise UnicodeDecodeError, w')
    ∧ w' = with_fs w (w_fs w')
    ∧ w_fs w' !! bad = w_fs w !! bad
    ∧ (∀ k, ¬ is_stub (w_fs w) (joinpath output_dir (name (parent module_path))) k →
            w_fs w' !! k = w_fs w !! k).
Proof.
  intros Happ Hstubs Hdom Hbad Hunread.
  destruct (rglob_run _ (matches_suffix ".py") w Happ) as (files & Hglob & Hnd & Hfiles).
  destruct (rewrite_loop_undecodable
              (PyStr.replace old_text (new_text (name (parent module_path))))
              files bad w Hnd) as (fs' & Hloop & Hsame & Hout).
  - intros k (Hk & Hstub)%Hfiles. by apply Hstubs.
  - by apply Hfiles.
  - done.
  - exists (with_fs w fs'). split; [|split; [done|split; [done|]]].
    + unfold build_merge. cbn [app].
      rewrite (bind_ok _ _ _ _ _ Hglob).
      by rewrite (bind_raise _ _ _ _ _ Hloop).
    + intros k Hk. apply Hout. intros (_ & Hs)%Hfiles. by apply Hk.
Qed.

End UndecodableStub.

Lemma make_ancestors_settled (fs : gmap path node) (p : path) (l : list nat) :
  (∀ n, n ∈ l → is_Some (stat fs (take n p))) →
  foldr (λ n acc, match stat acc (take n p) with
                  | None => <[take n p := Dir]> acc
                  | Some _ => acc
                  end) fs l = fs.
Proof.
  induction l as [|n l IH]; intros Hl; [done|]. simpl.
  rewrite IH by (intros m Hm; apply Hl; by right).
  by destruct (Hl n ltac:(left)) as [v ->].
Qed.

Lemma make_ancestors_one (fs : gmap path node) (d : path) (a b : string) :
  (∀ n, is_dir fs (take n d) = true) →
  stat fs (d ++ [a]) = None →
  make_ancestors fs (d ++ [a; b]) = <[d ++ [a] := Dir]> fs.
Proof.
  intros Hd Ha. unfold make_ancestors.
  replace (length (d ++ [a; b]) - 1) with (length d + 1)
    by (rewrite length_app; simpl; lia).
  rewrite seq_app, foldr_app. simpl.
  assert (take (S (length d)) (d ++ [a; b]) = d ++ [a]) as ->.
  { change [a; b] with ([a] ++ [b]). rewrite (assoc_L (++)).
    rewrite take_app_length'; [done|]. rewrite length_app. simpl. lia. }
  rewrite Ha. apply make_ancestors_settled.
  intros n Hn%elem_of_seq.
  rewrite take_app_le by lia. specialize (Hd n). unfold is_dir in Hd.
  destruct (take n d) as [|x t] eqn:E; [by eexists|].
  rewrite stat_nonempty by done. rewrite lookup_insert_ne.
  - rewrite <- (stat_nonempty fs (x :: t)) by done.
    destruct (stat fs (x :: t)); [by eexists|done].
  - intros Heq. apply (f_equal length) in Heq. rewrite length_app, <- E, length_take in Heq.
    simpl in Heq. lia.
Qed.

Section WithoutApplicationDirectory.
Context `{!Host}.

(** X9. When nothing is at or below [output_dir/module_name], the merged
    packaging of [build] rewrites no file: it creates that directory and
    moves the gatekeeper into it, whatever the directory of the obfuscated
    application is called. *)
Theorem build_merge_without_application_directory
    (module_path output_dir : path) (w : world) :
  name (parent module_path) ≠ EmptyString →
  name (parent module_path) ≠ "codeenigma_runtime" →
  (∀ n, is_dir (w_fs w) (take n output_dir) = true) →
  (∀ rest, w_fs w !! (output_dir ++ [name (parent module_path)] ++ rest) = None) →
  is_dir (w_fs w) (output_dir ++ ["codeenigma_runtime"]) = true →
  ∃ w',
    build_merge module_path output_dir w
    = (Ok (output_dir ++ [name (parent module_path); "codeenigma_runtime"]), w')
    ∧ w' = with_fs w (w_fs w')
    ∧ w_fs w' !! (output_dir ++ [name (parent module_path)]) = Some Dir
    ∧ (∀ rest,
         w_fs w' !! (output_dir ++ [name (parent module_path); "codeenigma_runtime"] ++ rest)
         = w_fs w !! (output_dir ++ ["codeenigma_runtime"] ++ rest))
    ∧ (∀ rest, w_fs w' !! (output_dir ++ ["codeenigma_runtime"] ++ rest) = None)
    ∧ (∀ k, ¬ (output_dir ++ [name (parent module_path)]) `prefix_of` k →
            ¬ (output_dir ++ ["codeenigma_runtime"]) `prefix_of` k →
            w_fs w' !! k = w_fs w !! k).
Proof.
  set (mn := name (parent module_path)).
  intros Hne Hmn Hout Hfree Hrt.
  assert (joinpath output_dir mn = output_dir ++ [mn]) as Hjoin.
  { by destruct mn. }
  set (app_dir := output_dir ++ [mn]) in *.
  set (runtime := output_dir ++ ["codeenigma_runtime"]) in *.
  set (dest := output_dir ++ [mn; "codeenigma_runtime"]) in *.
  assert (dest = app_dir ++ ["codeenigma_runtime"]) as Hdest_app.
  { unfold dest, app_dir. by rewrite <- (assoc_L (++)). }
  assert (dest ≠ []) as Hdest_ne by (unfold dest; by destruct output_dir).
  assert (runtime ≠ []) as Hrt_ne by (unfold runtime; by destruct output_dir).
  assert (app_dir ≠ []) as Happ_ne by (unfold app_dir; by destruct output_dir).
  assert (w_fs w !! app_dir = None) as Happ_none.
  { exact (Hfree []). }
  assert (w_fs w !! dest = None) as Hdest_none.
  { exact (Hfree ["codeenigma_runtime"]). }
  assert (∀ rest, ¬ app_dir `prefix_of` runtime ++ rest) as Happ_rt.
  { intros rest. unfold app_dir, runtime. rewrite <- (assoc_L (++)).
    by apply not_prefix_sibling. }
  assert (∀ rest, ¬ runtime `prefix_of` app_dir ++ rest) as Hrt_app.
  { intros rest. unfold app_dir, runtime. rewrite <- (assoc_L (++)).
    apply not_prefix_sibling. congruence. }
  assert (under runtime dest = false) as Hunder.
  { destruct (under runtime dest) eqn:E; [|done]. apply under_spec in E.
    rewrite Hdest_app in E. by apply Hrt_app in E. }
  assert (ancestors_clear (w_fs w) dest = true) as Hclear.
  { unfold ancestors_clear. apply forallb_forall. intros n Hn%in_seq.
    unfold dest in Hn |- *. rewrite length_app in Hn. simpl in Hn.
    destruct (decide (n ≤ length output_dir)%nat) as [Hle|Hgt].
    - rewrite take_app_le by done. specialize (Hout n). unfold is_dir, is_file in *.
      by destruct (stat (w_fs w) (take n output_dir)) as [[|]|].
    - assert (n = S (length output_dir)) as -> by lia.
      change [mn; "codeenigma_runtime"] with ([mn] ++ ["codeenigma_runtime"]).
      rewrite (assoc_L (++)), take_app_length' by (rewrite length_app; simpl; lia).
      fold app_dir. unfold is_file. by rewrite stat_nonempty, Happ_none. }
  assert (make_ancestors (w_fs w) dest = <[app_dir := Dir]> (w_fs w)) as Hmade.
  { apply make_ancestors_one; [done|]. fold app_dir. by rewrite stat_nonempty. }
  assert (move runtime dest w
          = (Ok (), with_fs w (rename_tree runtime dest (<[app_dir := Dir]> (w_fs w)))))
    as Hmove.
  { unfold move, move_onto. run. unfold is_dir, exists_ in *.
    rewrite (stat_nonempty _ dest) by done. rewrite Hdest_none. simpl.
    rewrite (stat_nonempty _ runtime) by done.
    rewrite (stat_nonempty _ runtime) in Hrt by done.
    destruct (w_fs w !! runtime) as [[|]|]; [done| |done]. simpl.
    rewrite Hunder. rewrite (stat_nonempty _ dest) by done. rewrite Hdest_none.
    assert (parent dest = app_dir) as ->.
    { rewrite Hdest_app. unfold parent. apply removelast_last. }
    rewrite (stat_nonempty _ app_dir) by done. rewrite Happ_none.
    by rewrite Hclear, Hmade. }
  exists (with_fs w (rename_tree runtime dest (<[app_dir := Dir]> (w_fs w)))).
  split.
  { unfold build_merge. fold mn. cbn [app]. rewrite Hjoin. cbn [joinpath].
    fold app_dir runtime. rewrite <- Hdest_app.
    erewrite bind_ok; cycle 1.
    { unfold rglob. run. unfold is_dir. rewrite stat_nonempty, Happ_none by done.
      reflexivity. }
    cbn [for_each]. erewrite bind_ok by reflexivity.
    by rewrite (bind_ok _ _ _ _ _ Hmove). }
  split; [done|]. cbn [with_fs w_fs].
  split; [|split; [|split]].
  - rewrite rename_tree_lookup. unfold renamed.
    assert (under dest app_dir = false) as ->.
    { destruct (under dest app_dir) eqn:E; [|done]. apply under_spec in E as [y Hy].
      apply (f_equal length) in Hy. rewrite Hdest_app, !length_app in Hy. simpl in Hy. lia. }
    assert (under runtime app_dir = false) as ->.
    { destruct (under runtime app_dir) eqn:E; [|done]. apply under_spec in E.
      rewrite <- (app_nil_r app_dir) in E. by apply Hrt_app in E. }
    apply lookup_insert_eq.
  - intros rest. rewrite rename_tree_lookup. unfold renamed.
    rewrite (assoc_L (++) output_dir). fold dest.
    assert (under dest (dest ++ rest) = true) as ->.
    { apply under_spec. by apply prefix_app_r. }
    rewrite drop_app_length. rewrite lookup_insert_ne.
    + by rewrite (assoc_L (++)).
    + intros Heq. apply (Happ_rt rest). by rewrite <- Heq.
  - intros rest. rewrite rename_tree_lookup. unfold renamed.
    rewrite (assoc_L (++) output_dir). fold runtime.
    destruct (under dest (runtime ++ rest)) eqn:E1.
    { apply under_spec in E1. destruct E1 as [y Hy]. exfalso. apply (Happ_rt rest).
      exists (["codeenigma_runtime"] ++ y). rewrite Hy, Hdest_app.
      by rewrite <- (assoc_L (++)). }
    assert (under runtime (runtime ++ rest) = true) as ->; [|done].
    apply under_spec. by apply prefix_app_r.
  - intros k Hk1 Hk2. rewrite rename_tree_lookup. unfold renamed.
    assert (under dest k = false) as ->.
    { destruct (under dest k) eqn:E; [|done]. apply under_spec in E as [y Hy].
      exfalso. apply Hk1. exists (["codeenigma_runtime"] ++ y).
      by rewrite Hy, Hdest_app, <- (assoc_L (++)). }
    assert (under runtime k = false) as ->.
    { destruct (under runtime k) eqn:E; [|done]. by apply under_spec in E. }
    apply lookup_insert_ne. intros <-. by apply Hk1.
Qed.

End WithoutApplicationDirectory.

(** ** The further properties at work on the sample host *)

Section MoreExamples.
#[local] Existing Instance Sample.host.

Lemma create_extension_without_setup_py_witness :
  PoetryBundler.create_extension ["out"; "mod"] None Sample.w_out_dir
  = (Raise FileNotFoundError, Sample.w_out_dir)
  ∧ UVBundler.create_extension ["out"; "mod"] None Sample.w_out_dir
    = (Raise FileNotFoundError, Sample.w_out_dir).
Proof.
  apply (create_extension_without_setup_py ["out"; "mod"] None Sample.w_out_dir);
    vm_compute; reflexivity.
Defined.

Lemma create_extension_returns_last_candidate_witness :
  (PoetryBundler.create_extension ["proj"; "mod"] None Sample.w_project).1
  = Ok ["proj"; "codeenigma_runtime.so"]
  ∧ w_fs (PoetryBundler.create_extension ["proj"; "mod"] None Sample.w_project).2
      !! ["proj"; "build"] = None.
Proof.
  destruct (create_extension_returns_last_candidate ["proj"; "mod"] Sample.w_project
              Sample.w_project_compiled [["proj"; "codeenigma_runtime.so"]]
              ["proj"; "codeenigma_runtime.so"]) as [Hpoetry _];
    [vm_compute; reflexivity..|].
  destruct Hpoetry as [Hrun _]; [vm_compute; reflexivity..|].
  rewrite Hrun by (vm_compute; reflexivity).
  split; vm_compute; reflexivity.
Defined.

Lemma poetry_create_extension_moves_module_witness :
  (PoetryBundler.create_extension ["proj"; "mod"] (Some ["out"]) Sample.w_project).1
  = Ok ["out"; "codeenigma_runtime.so"]
  ∧ w_fs (PoetryBundler.create_extension ["proj"; "mod"] (Some ["out"]) Sample.w_project).2
      !! ["out"; "codeenigma_runtime.so"] = Some (File "ELF")
  ∧ w_fs (PoetryBundler.create_extension ["proj"; "mod"] (Some ["out"]) Sample.w_project).2
      !! ["proj"; "codeenigma_runtime.so"] = None.
Proof.
  rewrite (poetry_create_extension_moves_module ["proj"; "mod"] ["out"] Sample.w_project
             Sample.w_project_compiled [["proj"; "codeenigma_runtime.so"]]
             ["proj"; "codeenigma_runtime.so"] "ELF");
    [|vm_compute; reflexivity..].
  repeat split; vm_compute; reflexivity.
Defined.

Lemma standard_create_extension_keeps_module_in_place_witness :
  (StandardBundler.create_extension ["proj"; "mod"] (Some ["out"]) Sample.w_project).1
  = Ok ["proj"; "codeenigma_runtime.so"]
  ∧ w_fs (StandardBundler.create_extension ["proj"; "mod"] (Some ["out"]) Sample.w_project).2
      !! ["proj"; "codeenigma_runtime.so"] = Some (File "ELF")
  ∧ w_fs (StandardBundler.create_extension ["proj"; "mod"] (Some ["out"]) Sample.w_project).2
      !! ["out"; "codeenigma_runtime.so"] = None.
Proof.
  destruct (standard_create_extension_keeps_module_in_place ["proj"; "mod"] ["out"]
              Sample.w_project Sample.w_project_python [["proj"; "codeenigma_runtime.so"]]
              ["proj"; "codeenigma_runtime.so"] "ELF") as [Hrun _];
    [vm_compute; reflexivity | vm_compute; reflexivity | vm_compute; reflexivity
    | vm_compute; reflexivity | vm_compute; congruence | vm_compute; reflexivity
    | vm_compute; reflexivity | vm_compute; reflexivity | left; vm_compute; reflexivity |].
  rewrite Hrun. repeat split; vm_compute; reflexivity.
Defined.

Lemma build_merge_stops_at_undecodable_stub_witness :
  ∃ w',
    build_merge ["proj"; "app"] ["cedist"] Sample.w_dist_binary
    = (Raise UnicodeDecodeError, w')
    ∧ w_fs w' !! ["cedist"; "codeenigma_runtime"] = Some Dir
    ∧ w_fs w' !! ["cedist"; "proj"; "codeenigma_runtime"] = None.
Proof.
  destruct (build_merge_stops_at_undecodable_stub ["proj"; "app"] ["cedist"]
              ["cedist"; "proj"; "main.py"] Sample.w_dist_binary)
    as (w' & Hrun & _ & _ & Hframe).
  - vm_compute. reflexivity.
  - intros k Hk (_ & _ & _ & Hpy). apply elem_of_dom in Hk as [v Hv].
    unfold Sample.w_dist_binary, Sample.world_of in Hv. cbn [w_fs] in Hv.
    repeat (apply lookup_insert_Some in Hv as [[<- _]|[_ Hv]];
            [first [vm_compute; reflexivity | vm_compute in Hpy; discriminate Hpy]|]).
    apply lookup_singleton_Some in Hv as [<- _].
    first [vm_compute; reflexivity | vm_compute in Hpy; discriminate Hpy].
  - apply elem_of_dom. eexists. vm_compute. reflexivity.
  - repeat split; [done|vm_compute; reflexivity..].
  - vm_compute. reflexivity.
  - exists w'. split; [exact Hrun|]. split.
    + rewrite Hframe; [vm_compute; reflexivity|].
      intros (_ & _ & _ & Hpy). vm_compute in Hpy. discriminate Hpy.
    + rewrite Hframe; [vm_compute; reflexivity|].
      intros (_ & _ & _ & Hpy). vm_compute in Hpy. discriminate Hpy.
Defined.

Lemma build_merge_without_application_directory_witness :
  ∃ w',
    build_merge ["proj"; "app"] ["cedist"] Sample.w_dist_app
    = (Ok ["cedist"; "proj"; "codeenigma_runtime"], w')
    ∧ w_fs w' !! ["cedist"; "proj"] = Some Dir
    ∧ w_fs w' !! ["cedist"; "proj"; "codeenigma_runtime"; "codeenigma_runtime.so"]
      = Some (File "ELF")
    ∧ w_fs w' !! ["cedist"; "app"; "main.py"]
      = Some (File "from codeenigma_runtime import execute_secure_code").
Proof.
  destruct (build_merge_without_application_directory ["proj"; "app"] ["cedist"]
              Sample.w_dist_app) as (w' & Hrun & _ & Hmade & Hmoved & _ & Hframe).
  - vm_compute. congruence.
  - vm_compute. congruence.
  - intros [|[|n]]; vm_compute; reflexivity.
  - intros rest. apply eq_None_not_Some. intros [v Hv].
    unfold Sample.w_dist_app, Sample.world_of in Hv. cbn [w_fs] in Hv.
    change (name (parent ["proj"; "app"])) with "proj" in Hv. cbn [app] in Hv.
    repeat (apply lookup_insert_Some in Hv as [[Hk _]|[_ Hv]]; [discriminate Hk|]).
    apply lookup_singleton_Some in Hv as [Hk _]. discriminate Hk.
  - vm_compute. reflexivity.
  - exists w'. split; [exact Hrun|]. split; [exact Hmade|]. split.
    + etrans; [exact (Hmoved ["codeenigma_runtime.so"])|vm_compute; reflexivity].
    + rewrite Hframe; [vm_compute; reflexivity|..].
      * intros Hp. apply under_spec in Hp. vm_compute in Hp. discriminate Hp.
      * intros Hp. apply under_spec in Hp. vm_compute in Hp. discriminate Hp.
Defined.

End MoreExamples.
